(** * Service worker of Crypto Monitor Pro: caching strategies

    A shallow embedding of the service worker script: the request
    classifier of its fetch listener, its four strategy handlers, the
    background update of the api cache, the cache commands sent by the
    page and the periodic cleanup.

    Conventions of the embedding:
    - strings are [string]; a parsed [URL] is a record of the components
      the script reads ([href], [hostname], [pathname], [searchParams]);
    - a cache is an insertion-ordered association list from request URL
      to stored [Response] (requests are GET requests for http(s) URLs
      without fragment, the ones the Cache interface stores and matches
      by their URL); the [caches] registry is a finite map from cache
      name to cache;
    - asynchronous code is written in a state-and-exception monad [M] over
      a [World]: the clock, the cache storage, the log of the network
      exchanges carried out and the queue of detached calls; a promise
      that rejects is [Rejected];
    - the script never awaits [cache.put]: a put that the Cache interface
      accepts takes effect at the call, one that it refuses (a response of
      status 206 or with [Vary: *]) is an unhandled rejection and stores
      nothing;
    - the platform (what the network answers and when, whether the cache
      storage opens, the origin of the worker) is an [Env]. *)

From Stdlib Require Import ZArith Lia Ascii String List Bool.
From Stdlib Require Import Decimal DecimalString DecimalZ DecimalPos DecimalN.
From stdpp Require Import base option gmap strings list.

Local Open Scope Z_scope.

(** ** JavaScript string primitives *)

Module JSString.

(** [s.startsWith(p)] *)
Fixpoint startsWith (s p : string) : bool :=
  match p, s with
  | EmptyString, _ => true
  | String _ _, EmptyString => false
  | String a p', String b s' => Ascii.eqb a b && startsWith s' p'
  end.

(** [s.includes(p)] *)
Fixpoint includes (s p : string) : bool :=
  startsWith s p ||
  match s with
  | EmptyString => false
  | String _ s' => includes s' p
  end.

(** [s.endsWith(p)] *)
Fixpoint endsWith (s p : string) : bool :=
  String.eqb s p ||
  match s with
  | EmptyString => false
  | String _ s' => endsWith s' p
  end.

(** ASCII case folding, as the [i] flag of a regular expression without
    the [u] flag performs it on ASCII letters. *)
Definition lower (c : ascii) : ascii :=
  let n := nat_of_ascii c in
  if (Nat.leb 65 n && Nat.leb n 90)%bool then ascii_of_nat (n + 32) else c.

Fixpoint toLowerCase (s : string) : string :=
  match s with
  | EmptyString => EmptyString
  | String c s' => String (lower c) (toLowerCase s')
  end.

End JSString.

Import JSString.

(** ** Requests *)

Record URL := mkURL {
  href : string;
  hostname : string;
  pathname : string;
  searchParams : list (string * string)
}.

Record Request := mkRequest {
  request_URL : URL;          (* [new URL(request.url)] *)
  destination : string
}.

(** [request.url] is the serialisation of the request's URL. *)
Definition request_url (request : Request) : string := href (request_URL request).

(** ** Constants of the script *)

Definition STATIC_CACHE_NAME : string := "crypto-monitor-static-v1.0.1".
Definition DYNAMIC_CACHE_NAME : string := "crypto-monitor-dynamic-v1.0.1".
Definition API_CACHE_NAME : string := "crypto-monitor-api-v1.0.1".

Definition STATIC_ASSETS : list string :=
  [ "/"; "/index.html"; "/css/styles.css"; "/js/app.js";
    "/js/modules/api.js"; "/js/modules/portfolio.js"; "/js/modules/alerts.js";
    "/js/modules/charts.js"; "/js/modules/theme.js"; "/js/modules/storage.js";
    "/js/modules/notifications.js"; "/js/modules/analytics.js";
    "/js/utils/formatters.js"; "/js/utils/validators.js"; "/manifest.json";
    "https://cdn.jsdelivr.net/npm/chart.js"; "https://cdn.tailwindcss.com";
    "https://unpkg.com/feather-icons";
    "https://fonts.googleapis.com/css2?family=Inter:wght@300;400;500;600;700;800;900&display=swap";
    "https://fonts.googleapis.com/css2?family=JetBrains+Mono:wght@400;500;600;700&display=swap" ].

Definition API_ENDPOINTS : list string :=
  [ "https://api.coingecko.com/api/v3/global";
    "https://api.coingecko.com/api/v3/coins/markets";
    "https://api.coingecko.com/api/v3/coins/list";
    "https://api.coingecko.com/api/v3/search/trending";
    "https://api.coingecko.com/api/v3/simple/price" ].

(** Cache durations, in milliseconds. *)
Module CACHE_DURATIONS.
Definition static : Z := 24 * 60 * 60 * 1000.
Definition api : Z := 5 * 60 * 1000.
Definition dynamic : Z := 60 * 60 * 1000.
Definition images : Z := 7 * 24 * 60 * 60 * 1000.
End CACHE_DURATIONS.

(** ** The classifier *)

Definition isAPIRequest (url : URL) : bool :=
  existsb (fun endpoint => startsWith (href url) endpoint) API_ENDPOINTS
  || String.eqb (hostname url) "api.coingecko.com"
  || includes (pathname url) "/api/".

Definition isStaticAsset (url : URL) : bool :=
  existsb (fun asset => String.eqb (pathname url) asset) STATIC_ASSETS
  || endsWith (pathname url) ".js"
  || endsWith (pathname url) ".css"
  || endsWith (pathname url) ".html"
  || String.eqb (hostname url) "cdn.jsdelivr.net"
  || String.eqb (hostname url) "cdn.tailwindcss.com"
  || String.eqb (hostname url) "unpkg.com"
  || String.eqb (hostname url) "fonts.googleapis.com"
  || String.eqb (hostname url) "fonts.gstatic.com".

(** The extensions of [/\.(jpg|jpeg|png|gif|webp|svg|ico)$/i]. *)
Definition IMAGE_EXTENSIONS : list string :=
  [ ".jpg"; ".jpeg"; ".png"; ".gif"; ".webp"; ".svg"; ".ico" ].

Definition isImageRequest (url : URL) : bool :=
  existsb (fun ext => endsWith (toLowerCase (pathname url)) ext) IMAGE_EXTENSIONS
  || existsb (fun kv => String.eqb (fst kv) "image") (searchParams url)
  || includes (pathname url) "/images/".

Inductive Class := api | static | image | dynamic.

(** The [if / else if] chain of the fetch listener. *)
Definition classify (url : URL) : Class :=
  if isAPIRequest url then api
  else if isStaticAsset url then static
  else if isImageRequest url then image
  else dynamic.

(** ** Responses and their headers *)

(** A [Headers] object: header names are kept lower-cased, as the class
    normalises them; [get] returns the first value of a name and [set]
    overwrites the first occurrence and drops the others. *)
Definition Headers := list (string * string).

Module HeadersOps.

Fixpoint get (h : Headers) (name : string) : option string :=
  match h with
  | [] => None
  | (n, v) :: t => if String.eqb n name then Some v else get t name
  end.

Definition remove (h : Headers) (name : string) : Headers :=
  List.filter (fun nv => negb (String.eqb (fst nv) name)) h.

Fixpoint set (h : Headers) (name value : string) : Headers :=
  match h with
  | [] => [(name, value)]
  | (n, v) :: t =>
      if String.eqb n name then (name, value) :: remove t name
      else (n, v) :: set t name value
  end.

End HeadersOps.

Record Response := mkResponse {
  status : Z;
  statusText : string;
  headers : Headers;
  body : string
}.

(** [response.ok]: the status is in the range 200-299. *)
Definition ok (response : Response) : bool :=
  (200 <=? status response) && (status response <=? 299).

(** [new Response(text, { status, headers })] for a string body: the
    constructor adds a [content-type] when the init has none. *)
Definition new_Response_text (text : string) (st : Z) (h : Headers) : Response :=
  {| status := st;
     statusText := "";
     headers := match HeadersOps.get h "content-type" with
                | Some _ => h
                | None => h ++ [("content-type", "text/plain;charset=UTF-8")]
                end;
     body := text |}.

(** *** What the Cache interface accepts *)

Module HTTP.

Definition isTabOrSpace (c : ascii) : bool :=
  Ascii.eqb c " " || Ascii.eqb c "009".

Fixpoint stripStart (s : string) : string :=
  match s with
  | String c s' => if isTabOrSpace c then stripStart s' else s
  | EmptyString => s
  end.

(** [s] without the tabs and spaces at its two ends. *)
Definition strip (s : string) : string :=
  String.rev (stripStart (String.rev (stripStart s))).

(** The elements of a comma-separated header value; [cur] is the element
    being read. *)
Fixpoint elements_from (s cur : string) : list string :=
  match s with
  | EmptyString => [strip cur]
  | String c s' =>
      if Ascii.eqb c "," then strip cur :: elements_from s' ""
      else elements_from s' (cur +:+ String c EmptyString)
  end.

Definition field_values (value : string) : list string := elements_from value "".

End HTTP.

(** A [Vary] header lists [*]. *)
Definition varies_on_all (h : Headers) : bool :=
  List.existsb
    (fun nv => String.eqb (fst nv) "vary"
               && List.existsb (String.eqb "*") (HTTP.field_values (snd nv)))
    h.

(** Whether [cache.put] and [cache.addAll] accept to store the response:
    not a partial answer (status 206) and no [Vary: *]. *)
Definition storable (response : Response) : bool :=
  negb (status response =? 206) && negb (varies_on_all (headers response)).

(** [new Response(source.body, { status, statusText, headers })] *)
Definition new_Response_from (source : Response) (h : Headers) : Response :=
  {| status := status source;
     statusText := statusText source;
     headers := h;
     body := body source |}.

(** ** Numbers and strings: [Date.now().toString()] and [parseInt] *)

Module JSNumber.

(** [n.toString()] for an integer. *)
Definition toString (n : Z) : string := NilZero.string_of_int (Z.to_int n).

(** The white space [parseInt] skips, among the code points a header
    value can hold (U+0000 to U+00FF): tab to carriage return, space and
    the no-break space U+00A0. *)
Definition isWhiteSpace (c : ascii) : bool :=
  let n := nat_of_ascii c in
  (Nat.leb 9 n && Nat.leb n 13) || Nat.eqb n 32 || Nat.eqb n 160.

Fixpoint trimStart (s : string) : string :=
  match s with
  | String c s' => if isWhiteSpace c then trimStart s' else s
  | EmptyString => s
  end.

Definition digit (radix : Z) (c : ascii) : option Z :=
  let n := Z.of_nat (nat_of_ascii c) in
  let d := if (48 <=? n) && (n <=? 57) then n - 48
           else if (97 <=? n) && (n <=? 122) then n - 87
           else if (65 <=? n) && (n <=? 90) then n - 55
           else 99 in
  if d <? radix then Some d else None.

(** The longest prefix of digits, accumulated; [None] when it is empty. *)
Fixpoint digits (radix : Z) (s : string) (acc : option Z) : option Z :=
  match s with
  | EmptyString => acc
  | String c s' =>
      match digit radix c with
      | Some d => digits radix s' (Some (default 0 acc * radix + d))
      | None => acc
      end
  end.

(** [parseInt(s)] without a radix argument; [None] is [NaN]. *)
Definition parseInt (s : string) : option Z :=
  let s := trimStart s in
  let '(sign, s) :=
    match s with
    | String "-" s' => (-1, s')
    | String "+" s' => (1, s')
    | _ => (1, s)
    end in
  let '(radix, s) :=
    match s with
    | String "0" (String "x" s') => (16, s')
    | String "0" (String "X" s') => (16, s')
    | _ => (10, s)
    end in
  option_map (Z.mul sign) (digits radix s None).

End JSNumber.

(** ** Freshness *)

Definition MARKER : string := "sw-cache-timestamp".

(** [isCacheExpired(response, maxAge)], with the value of [Date.now()]
    made explicit. An absent or empty marker is falsy; a marker that does
    not parse gives [NaN], and [NaN > maxAge] is false. *)
Definition isCacheExpired (now : Z) (response : Response) (maxAge : Z) : bool :=
  match HeadersOps.get (headers response) MARKER with
  | None => true
  | Some cacheTimestamp =>
      if String.eqb cacheTimestamp "" then true
      else match JSNumber.parseInt cacheTimestamp with
           | None => false
           | Some t => (now - t) >? maxAge
           end
  end.

(** The [cachedResponse && !isCacheExpired(cachedResponse, maxAge)] test. *)
Definition fresh (t : Z) (cachedResponse : option Response) (maxAge : Z) : bool :=
  match cachedResponse with
  | Some c => negb (isCacheExpired t c maxAge)
  | None => false
  end.

(** ** Caches *)

(** One cache: request URL to stored response, in insertion order. *)
Abbreviation Cache := (list (string * Response)).

Module CacheOps.

Fixpoint lookup (c : Cache) (key : string) : option Response :=
  match c with
  | [] => None
  | (k, r) :: t => if String.eqb k key then Some r else lookup t key
  end.

Definition delete (c : Cache) (key : string) : Cache :=
  List.filter (fun kr => negb (String.eqb (fst kr) key)) c.

Definition put (c : Cache) (key : string) (r : Response) : Cache :=
  delete c key ++ [(key, r)].

Definition keys (c : Cache) : list string := List.map fst c.

End CacheOps.

(** ** The platform and the state of the worker *)

Inductive FetchResult :=
| Fetched (response : Response)
| NetworkError.

(** What the worker cannot control: what the network answers to a URL
    asked at a given time and how long it takes, whether [caches.open]
    succeeds, and the origin against which relative URLs resolve. *)
Record Env := mkEnv {
  network : Z -> string -> FetchResult;
  latency : Z -> string -> Z;
  storage_available : bool;
  origin : string
}.

(** A detached call: started, never awaited by the code that started it. *)
Inductive Task :=
| BackgroundUpdate (request : Request) (cache : string).

Record World := mkWorld {
  now : Z;                          (* [Date.now()] *)
  caches : gmap string Cache;       (* the [caches] registry *)
  fetched : list string;            (* network fetches run so far, oldest first *)
  detached : list Task              (* detached calls not yet run *)
}.

Definition with_caches (f : gmap string Cache -> gmap string Cache) (w : World) : World :=
  {| now := now w; caches := f (caches w); fetched := fetched w; detached := detached w |}.

Definition with_now (t : Z) (w : World) : World :=
  {| now := t; caches := caches w; fetched := fetched w; detached := detached w |}.

(** The entries of a named cache; a cache that does not exist has none. *)
Definition entries (w : World) (name : string) : Cache :=
  default [] (caches w !! name).

Definition stored (w : World) (name key : string) : option Response :=
  CacheOps.lookup (entries w name) key.

(** ** Promises: a state monad with rejection *)

Inductive Error :=
| StorageUnavailable      (* [caches.open] failed *)
| NetworkFailure          (* [fetch] rejected *)
| BatchFailure            (* [cache.addAll] rejected *)
| TypeError.              (* a property of [undefined] or [null] was read *)

Inductive Outcome (A : Type) :=
| Resolved (a : A)
| Rejected (e : Error).
Arguments Resolved {A} a.
Arguments Rejected {A} e.

Definition M (A : Type) : Type := World -> Outcome A * World.

Definition ret {A} (a : A) : M A := fun w => (Resolved a, w).

Definition bind {A B} (m : M A) (k : A -> M B) : M B :=
  fun w =>
    match m w with
    | (Resolved a, w') => k a w'
    | (Rejected e, w') => (Rejected e, w')
    end.

(** [try { body } catch (error) { handler }] *)
Definition try_catch {A} (body : M A) (handler : Error -> M A) : M A :=
  fun w =>
    match body w with
    | (Resolved a, w') => (Resolved a, w')
    | (Rejected e, w') => handler e w'
    end.

#[global] Instance M_ret : MRet M := @ret.
#[global] Instance M_bind : MBind M := fun A B k m => bind m k.

(** *** Platform operations *)

Definition Date_now : M Z := fun w => (Resolved (now w), w).

(** The world after [caches.open(name)]: the cache exists. *)
Definition opened (name : string) (w : World) : World :=
  with_caches (fun cs => match cs !! name with
                         | Some _ => cs
                         | None => <[name := []]> cs
                         end) w.

(** [caches.open(name)]: creates the cache when it does not exist. *)
Definition caches_open (env : Env) (name : string) : M string :=
  fun w =>
    if storage_available env then (Resolved name, opened name w)
    else (Rejected StorageUnavailable, w).

Definition cache_match (cache key : string) : M (option Response) :=
  fun w => (Resolved (stored w cache key), w).

Definition put_in (cache key : string) (r : Response) (w : World) : World :=
  with_caches (fun cs => <[cache := CacheOps.put (default [] (cs !! cache)) key r]> cs) w.

(** The world after a put that is not awaited: the entry is there when
    the Cache interface accepts the response, nothing has changed when it
    refuses it. *)
Definition put_accepted (cache key : string) (r : Response) (w : World) : World :=
  if storable r then put_in cache key r w else w.

(** [cache.put(key, r)], as the script calls it everywhere: not awaited,
    so a refusal is not seen by the caller. *)
Definition cache_put (cache key : string) (r : Response) : M unit :=
  fun w => (Resolved tt, put_accepted cache key r w).

Definition deleted_in (cache key : string) (w : World) : World :=
  with_caches (fun cs => <[cache := CacheOps.delete (default [] (cs !! cache)) key]> cs) w.

Definition cache_delete (cache key : string) : M unit :=
  fun w => (Resolved tt, deleted_in cache key w).

Definition cache_keys (cache : string) : M (list string) :=
  fun w => (Resolved (CacheOps.keys (entries w cache)), w).

(** The part of an absolute URL after [://], with the path [/] that
    serialising gives to a URL written without one. *)
Fixpoint with_path (rest : string) : string :=
  match rest with
  | EmptyString => "/"
  | String c rest' =>
      if Ascii.eqb c "/" then rest
      else if Ascii.eqb c "?" || Ascii.eqb c "#" then String "/" rest
      else String c (with_path rest')
  end.

Fixpoint serialize (u : string) : string :=
  match u with
  | EmptyString => EmptyString
  | String c u' =>
      if startsWith u "://" then
        match u' with
        | String s1 (String s2 rest) => String c (String s1 (String s2 (with_path rest)))
        | _ => u
        end
      else String c (serialize u')
  end.

(** A URL given as a string: the script uses absolute URLs, which are
    taken as the URL parser serialises them, and paths from the root,
    which resolve against the worker's origin. *)
Definition resolve (env : Env) (u : string) : string :=
  if startsWith u "/" then origin env +:+ u else serialize u.

(** The world once an exchange with the network has ended: the clock has
    moved on by the time it took and the log has the URL. *)
Definition exchanged (env : Env) (u : string) (w : World) : World :=
  {| now := now w + latency env (now w) u;
     caches := caches w;
     fetched := fetched w ++ [u];
     detached := detached w |}.

(** [await fetch(url)] *)
Definition fetch (env : Env) (u : string) : M Response :=
  fun w =>
    match network env (now w) u with
    | Fetched r => (Resolved r, exchanged env u w)
    | NetworkError => (Rejected NetworkFailure, exchanged env u w)
    end.

Definition spawned (t : Task) (w : World) : World :=
  {| now := now w; caches := caches w; fetched := fetched w;
     detached := detached w ++ [t] |}.

(** Calling an async function without awaiting it. *)
Definition spawn (t : Task) : M unit :=
  fun w => (Resolved tt, spawned t w).

(** The answers of the network to a batch of URLs asked together. *)
Definition batch_answers (env : Env) (w : World) (urls : list string)
  : list (string * FetchResult) :=
  List.map (fun u => (resolve env u, network env (now w) (resolve env u))) urls.

(** An answer that [addAll] accepts: an ok response that can be stored. *)
Definition answer_accepted (a : string * FetchResult) : bool :=
  match snd a with
  | Fetched r => ok r && storable r
  | NetworkError => false
  end.

Fixpoint distinct (l : list string) : bool :=
  match l with
  | [] => true
  | x :: rest => negb (List.existsb (String.eqb x) rest) && distinct rest
  end.

(** Whether [addAll] goes through: every answer is accepted and no URL
    occurs twice in the batch. *)
Definition batch_accepted (env : Env) (w : World) (urls : list string) : bool :=
  List.forallb answer_accepted (batch_answers env w urls)
  && distinct (List.map (resolve env) urls).

Definition batch_asked (env : Env) (urls : list string) (w : World) : World :=
  {| now := now w + List.fold_right Z.max 0
                      (List.map (fun u => latency env (now w) (resolve env u)) urls);
     caches := caches w;
     fetched := fetched w ++ List.map (resolve env) urls;
     detached := detached w |}.

Definition put_answer (cache : string) (w : World) (a : string * FetchResult) : World :=
  match snd a with
  | Fetched r => put_in cache (fst a) r w
  | NetworkError => w
  end.

(** [cache.addAll(urls)] of the Cache interface: every URL is requested;
    when one exchange fails, or answers with a status that is not ok, with
    status 206 or with [Vary: *], or when a URL occurs twice, the promise
    rejects and nothing is stored; otherwise every response is stored
    under its URL. *)
Definition cache_addAll (env : Env) (cache : string) (urls : list string) : M unit :=
  fun w =>
    if batch_accepted env w urls
    then (Resolved tt,
          List.fold_left (put_answer cache) (batch_answers env w urls)
            (batch_asked env urls w))
    else (Rejected BatchFailure, batch_asked env urls w).

(** ** JSON payloads *)

Inductive JValue :=
| JString (s : string)
| JBool (b : bool).

Module JSON.

Definition quote (s : string) : string :=
  String "034" (s +:+ String "034" EmptyString).

Definition value (v : JValue) : string :=
  match v with
  | JString s => quote s
  | JBool true => "true"
  | JBool false => "false"
  end.

Fixpoint members (fields : list (string * JValue)) : string :=
  match fields with
  | [] => ""
  | [(k, v)] => quote k +:+ ":" +:+ value v
  | (k, v) :: rest => quote k +:+ ":" +:+ value v +:+ "," +:+ members rest
  end.

(** [JSON.stringify] of a flat object whose strings need no escaping. *)
Definition stringify (fields : list (string * JValue)) : string :=
  "{" +:+ members fields +:+ "}".

End JSON.

(** ** Strategy handlers *)

(** The copy that is stored: the network response with the freshness
    marker set to the time of the call. *)
Definition stamped (t : Z) (response : Response) : Response :=
  new_Response_from response
    (HeadersOps.set (headers response) MARKER (JSNumber.toString t)).

Definition OFFLINE_PAYLOAD : list (string * JValue) :=
  [ ("error", JString "Offline");
    ("message", JString "Network unavailable. Please check your connection.");
    ("cached", JBool false) ].

Definition offline_api_response : Response :=
  new_Response_text (JSON.stringify OFFLINE_PAYLOAD) 503
    [("content-type", "application/json")].

(** Background API cache update. *)
Definition updateAPICache (env : Env) (request : Request) (cache : string) : M unit :=
  try_catch
    (networkResponse ← fetch env (request_url request);
     if ok networkResponse then
       t ← Date_now;
       cache_put cache (request_url request) (stamped t networkResponse)
     else mret tt)
    (fun _ => mret tt).

(** API request handler. *)
Definition handleAPIRequest (env : Env) (request : Request) : M (option Response) :=
  cache ← caches_open env API_CACHE_NAME;
  cachedResponse ← cache_match cache (request_url request);
  t ← Date_now;
  if fresh t cachedResponse CACHE_DURATIONS.api
  then
    spawn (BackgroundUpdate request cache);;
    mret cachedResponse
  else
    try_catch
      (networkResponse ← fetch env (request_url request);
       (if ok networkResponse then
          t' ← Date_now;
          cache_put cache (request_url request) (stamped t' networkResponse)
        else mret tt);;
       mret (Some networkResponse))
      (fun _ =>
         match cachedResponse with
         | Some c => mret (Some c)
         | None => mret (Some offline_api_response)
         end).

(** Static asset handler. *)
Definition handleStaticAsset (env : Env) (request : Request) : M (option Response) :=
  cache ← caches_open env STATIC_CACHE_NAME;
  cachedResponse ← cache_match cache (request_url request);
  match cachedResponse with
  | Some c => mret (Some c)
  | None =>
      try_catch
        (networkResponse ← fetch env (request_url request);
         (if ok networkResponse then
            cache_put cache (request_url request) networkResponse
          else mret tt);;
         mret (Some networkResponse))
        (fun _ =>
           if String.eqb (destination request) "document" then
             cache_match cache (resolve env "/index.html")
           else
             mret (Some (new_Response_text "Asset not available offline" 503 [])))
  end.

(** Image request handler. *)
Definition handleImageRequest (env : Env) (request : Request) : M (option Response) :=
  cache ← caches_open env DYNAMIC_CACHE_NAME;
  cachedResponse ← cache_match cache (request_url request);
  t ← Date_now;
  if fresh t cachedResponse CACHE_DURATIONS.images
  then mret cachedResponse
  else
    try_catch
      (networkResponse ← fetch env (request_url request);
       (if ok networkResponse then
          t' ← Date_now;
          cache_put cache (request_url request) (stamped t' networkResponse)
        else mret tt);;
       mret (Some networkResponse))
      (fun _ =>
         match cachedResponse with
         | Some c => mret (Some c)
         | None => mret (Some (new_Response_text "" 404 []))
         end).

(** Dynamic request handler. *)
Definition handleDynamicRequest (env : Env) (request : Request) : M (option Response) :=
  try_catch
    (networkResponse ← fetch env (request_url request);
     (if ok networkResponse then
        cache ← caches_open env DYNAMIC_CACHE_NAME;
        cache_put cache (request_url request) networkResponse
      else mret tt);;
     mret (Some networkResponse))
    (fun _ =>
       cache ← caches_open env DYNAMIC_CACHE_NAME;
       cachedResponse ← cache_match cache (request_url request);
       match cachedResponse with
       | Some c => mret (Some c)
       | None =>
           if String.eqb (destination request) "document" then
             cache ← caches_open env STATIC_CACHE_NAME;
             cache_match cache (resolve env "/index.html")
           else
             mret (Some (new_Response_text "Content not available offline" 503 []))
       end).

(** The fetch listener: [None] when the listener returns without calling
    [event.respondWith], otherwise the promise handed to it. *)
Definition fetch_listener (env : Env) (request : Request) : option (M (option Response)) :=
  let url := request_URL request in
  if negb (startsWith (request_url request) "http") then None
  else if isAPIRequest url then Some (handleAPIRequest env request)
  else if isStaticAsset url then Some (handleStaticAsset env request)
  else if isImageRequest url then Some (handleImageRequest env request)
  else Some (handleDynamicRequest env request).

(** The handler of a class and the cache it opens for its entries. *)
Definition handler_of (c : Class) : Env -> Request -> M (option Response) :=
  match c with
  | api => handleAPIRequest
  | static => handleStaticAsset
  | image => handleImageRequest
  | dynamic => handleDynamicRequest
  end.


(** Running the detached calls that are pending. *)
Definition run_task (env : Env) (t : Task) : M unit :=
  match t with
  | BackgroundUpdate request cache => updateAPICache env request cache
  end.

Definition run_detached (env : Env) : M unit :=
  fun w =>
    (Resolved tt,
     List.fold_left (fun w' t => snd (run_task env t w')) (detached w)
       {| now := now w; caches := caches w; fetched := fetched w; detached := [] |}).

(** ** Commands from the page *)

(** [handleCacheUpdate({ cacheName, urls })] *)
Definition handleCacheUpdate (env : Env) (cacheName : string) (urls : list string) : M unit :=
  try_catch
    (cache ← caches_open env cacheName;
     cache_addAll env cache urls)
    (fun _ => mret tt).

Fixpoint prefetch_each (env : Env) (cache : string) (urls : list string) : M unit :=
  match urls with
  | [] => mret tt
  | url :: rest =>
      try_catch
        (response ← fetch env (resolve env url);
         if ok response then cache_put cache (resolve env url) response
         else mret tt)
        (fun _ => mret tt);;
      prefetch_each env cache rest
  end.

(** [handlePrefetchUrls(urls)] *)
Definition handlePrefetchUrls (env : Env) (urls : list string) : M unit :=
  try_catch
    (cache ← caches_open env DYNAMIC_CACHE_NAME;
     prefetch_each env cache urls)
    (fun _ => mret tt).

(** ** Periodic cache cleanup *)

Fixpoint cleanup_requests (cache : string) (requests : list string) : M unit :=
  match requests with
  | [] => mret tt
  | request :: rest =>
      response ← cache_match cache request;
      t ← Date_now;
      match response with
      | Some r =>
          if isCacheExpired t r CACHE_DURATIONS.api then cache_delete cache request
          else mret tt
      | None => mret tt
      end;;
      cleanup_requests cache rest
  end.

Fixpoint cleanup_caches (env : Env) (cacheNames : list string) : M unit :=
  match cacheNames with
  | [] => mret tt
  | cacheName :: rest =>
      cache ← caches_open env cacheName;
      requests ← cache_keys cache;
      cleanup_requests cache requests;;
      cleanup_caches env rest
  end.

(** The body of the hourly timer. *)
Definition periodic_cleanup (env : Env) : M unit :=
  try_catch
    (cleanup_caches env [API_CACHE_NAME; DYNAMIC_CACHE_NAME])
    (fun _ => mret tt).

(** ** The registry: listing and deleting caches *)

(** The names [caches.keys()] lists. *)
Definition cache_names (w : World) : list string := elements (dom (caches w)).

(** [caches.keys()]; like [caches.open], it needs the cache storage. *)
Definition caches_keys (env : Env) : M (list string) :=
  fun w =>
    if storage_available env then (Resolved (cache_names w), w)
    else (Rejected StorageUnavailable, w).

Definition removed (name : string) (w : World) : World :=
  with_caches (base.delete name) w.

(** [caches.delete(name)]: resolves to whether the cache existed. *)
Definition caches_delete (env : Env) (name : string) : M bool :=
  fun w =>
    if storage_available env
    then (Resolved (bool_decide (is_Some (caches w !! name))), removed name w)
    else (Rejected StorageUnavailable, w).

(** ** Install and activate *)

(** The install chain: the three caches are opened, the static one is
    filled with the manifest in one [addAll], then [self.skipWaiting()] is
    called; any failure is caught and logged. The value says whether
    [skipWaiting] was reached. *)
Definition install (env : Env) : M bool :=
  try_catch
    (staticCache ← caches_open env STATIC_CACHE_NAME;
     dynamicCache ← caches_open env DYNAMIC_CACHE_NAME;
     apiCache ← caches_open env API_CACHE_NAME;
     cache_addAll env staticCache STATIC_ASSETS;;
     mret true)
    (fun _ => mret false).

(** The callback mapped over the cache names at activation. *)
Definition delete_if_old (env : Env) (cacheName : string) : M unit :=
  if negb (String.eqb cacheName STATIC_CACHE_NAME)
     && negb (String.eqb cacheName DYNAMIC_CACHE_NAME)
     && negb (String.eqb cacheName API_CACHE_NAME)
  then caches_delete env cacheName;; mret tt
  else mret tt.

Fixpoint delete_old_caches (env : Env) (cacheNames : list string) : M unit :=
  match cacheNames with
  | [] => mret tt
  | cacheName :: rest =>
      delete_if_old env cacheName;;
      delete_old_caches env rest
  end.

(** The activate chain; it has no catch. It resolves once
    [self.clients.claim()] has been called. *)
Definition activate (env : Env) : M unit :=
  cacheNames ← caches_keys env;
  delete_old_caches env cacheNames.

(** ** Window clients *)

Record WindowClient := mkWindowClient {
  client_url : string;
  can_focus : bool                (* ['focus' in client] *)
}.

(** ** Background price update *)

Definition PRICE_URL : string :=
  "https://api.coingecko.com/api/v3/simple/price?ids=bitcoin,ethereum,cardano,ripple&vs_currencies=usd&include_24hr_change=true".

Section PriceData.

(** [JSON.stringify(JSON.parse(text))]; [None] when the text does not
    parse, in which case [response.json()] throws. *)
Variable reserialize : string -> option string.

(** [updatePriceData()], with the window clients that
    [self.clients.matchAll()] lists: the value is the list of the
    [PRICE_UPDATE] messages posted, one per client, each with its data.
    The response is not redirected, so [response.url] is the URL asked. A
    body that does not parse throws inside the try block, whose catch
    block only logs. *)
Definition updatePriceData (env : Env) (clients : list WindowClient)
  : M (list (WindowClient * string)) :=
  try_catch
    (response ← fetch env PRICE_URL;
     if ok response then
       match reserialize (body response) with
       | Some data =>
           cache ← caches_open env API_CACHE_NAME;
           t ← Date_now;
           cache_put cache PRICE_URL
             (new_Response_text data 200
                (HeadersOps.set (headers response) MARKER (JSNumber.toString t)));;
           mret (List.map (fun client => (client, data)) clients)
       | None => mret []
       end
     else mret [])
    (fun _ => mret []).

End PriceData.

(** ** More commands from the page *)

Fixpoint delete_each (env : Env) (cacheNames : list string) : M unit :=
  match cacheNames with
  | [] => mret tt
  | name :: rest =>
      caches_delete env name;;
      delete_each env rest
  end.

(** [handleClearCache(payload)]: the outer [None] is a message without
    payload, on which reading [payload.cacheName] throws inside the try
    block; the inner [None] is a payload without [cacheName]. An empty
    name is falsy. *)
Definition handleClearCache (env : Env) (payload : option (option string)) : M unit :=
  match payload with
  | None => mret tt
  | Some cacheName =>
      try_catch
        (if match cacheName with
            | Some name => negb (String.eqb name "")
            | None => false
            end
         then caches_delete env (default "" cacheName);; mret tt
         else
           cacheNames ← caches_keys env;
           delete_each env cacheNames)
        (fun _ => mret tt)
  end.

(** The message posted on the port of a [GET_CACHE_STATUS] event. *)
Inductive Reply :=
| CACHE_STATUS (data : gmap string nat)
| CACHE_STATUS_ERROR (error : Error).

Fixpoint count_entries (env : Env) (cacheNames : list string)
    (status : gmap string nat) : M (gmap string nat) :=
  match cacheNames with
  | [] => mret status
  | name :: rest =>
      cache ← caches_open env name;
      keys ← cache_keys cache;
      count_entries env rest (<[name := length keys]> status)
  end.

(** [event.ports[0].postMessage(reply)]: without a port, reading
    [postMessage] of [undefined] throws. The value is the message posted. *)
Definition post_on_port (port : bool) (reply : Reply) : M Reply :=
  fun w => if port then (Resolved reply, w) else (Rejected TypeError, w).

(** [handleGetCacheStatus(event)], for an event that comes with a port or
    without: the value is the message posted on [event.ports[0]]. The
    catch block posts on the same port. *)
Definition handleGetCacheStatus (env : Env) (port : bool) : M Reply :=
  try_catch
    (cacheNames ← caches_keys env;
     status ← count_entries env cacheNames ∅;
     post_on_port port (CACHE_STATUS status))
    (fun error => post_on_port port (CACHE_STATUS_ERROR error)).

(** The data of a message event, by its [type], with the payload of the
    shape the handler reads; for [GET_CACHE_STATUS], whether the event
    comes with a port. *)
Inductive Command :=
| CACHE_UPDATE (cacheName : string) (urls : list string)
| CLEAR_CACHE (payload : option (option string))
| PREFETCH_URLS (urls : list string)
| GET_CACHE_STATUS (port : bool)
| OTHER (type : string).

(** The message listener: the switch over [data.type]; [None] is a
    message whose data is [null] or [undefined], on which reading
    [data.type] throws. The outcome is that of the handler called (which
    the listener does not await); the value is the reply posted, if any. *)
Definition message_listener (env : Env) (data : option Command) : M (option Reply) :=
  match data with
  | None => fun w => (Rejected TypeError, w)
  | Some (CACHE_UPDATE cacheName urls) => handleCacheUpdate env cacheName urls;; mret None
  | Some (CLEAR_CACHE payload) => handleClearCache env payload;; mret None
  | Some (PREFETCH_URLS urls) => handlePrefetchUrls env urls;; mret None
  | Some (GET_CACHE_STATUS port) => reply ← handleGetCacheStatus env port; mret (Some reply)
  | Some (OTHER _) => mret None
  end.

(** ** Notification clicks *)




(** ** Vocabulary of the statements *)

(** Every entry of [w'] was already in [w] or is an ok response. *)
Definition only_ok_added (w w' : World) : Prop :=
  forall n k r, stored w' n k = Some r -> stored w n k = Some r \/ ok r = true.

(** [w'] stores what [w] stores. *)
Definition same_entries (w w' : World) : Prop :=
  forall n k, stored w' n k = stored w n k.

(** ** Sample inputs *)

Module Samples.

Definition T0 : Z := 1700000000000.

Definition app_origin : string := "https://app.example".

Definition price_url : URL :=
  mkURL "https://api.coingecko.com/api/v3/simple/price?ids=bitcoin"
        "api.coingecko.com" "/api/v3/simple/price" [("ids", "bitcoin")].

(** A script under an [/api/] path: api and static both match. *)
Definition api_script_url : URL :=
  mkURL "https://app.example/api/client.js" "app.example" "/api/client.js" [].

Definition app_js_url : URL :=
  mkURL "https://app.example/js/app.js" "app.example" "/js/app.js" [].

Definition logo_url : URL :=
  mkURL "https://app.example/images/logo.PNG" "app.example" "/images/logo.PNG" [].

Definition about_url : URL :=
  mkURL "https://app.example/about" "app.example" "/about" [].

Definition news_url : URL :=
  mkURL "https://app.example/news" "app.example" "/news" [].

Definition price_request : Request := mkRequest price_url "".
Definition api_script_request : Request := mkRequest api_script_url "script".
Definition app_js_navigation : Request := mkRequest app_js_url "document".
Definition logo_request : Request := mkRequest logo_url "image".
Definition about_request : Request := mkRequest about_url "document".

Definition response_200 : Response :=
  mkResponse 200 "OK" [("content-type", "application/json")] "{}".

Definition response_500 : Response :=
  mkResponse 500 "Internal Server Error" [] "oops".

(** An entry written by the api handler at [T0]. *)
Definition old_entry : Response :=
  mkResponse 200 "OK"
    [("content-type", "application/json"); ("sw-cache-timestamp", "1700000000000")]
    "old".

Definition online : Env :=
  mkEnv (fun _ _ => Fetched response_200) (fun _ _ => 40) true app_origin.

Definition offline : Env :=
  mkEnv (fun _ _ => NetworkError) (fun _ _ => 40) true app_origin.

Definition failing_server : Env :=
  mkEnv (fun _ _ => Fetched response_500) (fun _ _ => 40) true app_origin.

(** The network is up, [caches.open] fails. *)
Definition no_storage : Env :=
  mkEnv (fun _ _ => Fetched response_200) (fun _ _ => 40) false app_origin.


Definition empty_world : World := mkWorld T0 ∅ [] [].

(** The api cache holds [old_entry], six minutes old. *)
Definition stale_api_world : World :=
  mkWorld (T0 + 6 * 60 * 1000)
    {[ API_CACHE_NAME := [(href price_url, old_entry)] ]} [] [].

(** The dynamic cache holds a stamped image entry, ten minutes old. *)
Definition ten_minute_image_world : World :=
  mkWorld (T0 + 10 * 60 * 1000)
    {[ DYNAMIC_CACHE_NAME := [(href logo_url, old_entry)] ]} [] [].

End Samples.

(** The three names of the current version. *)
Definition current_name (n : string) : bool :=
  String.eqb n STATIC_CACHE_NAME || String.eqb n DYNAMIC_CACHE_NAME
  || String.eqb n API_CACHE_NAME.

(** ** More sample inputs *)

Module Samples2.

(** The api cache holds [Samples.old_entry], one minute old. *)
Definition fresh_api_world : World :=
  mkWorld (Samples.T0 + 60 * 1000)
    {[ API_CACHE_NAME := [(href Samples.price_url, Samples.old_entry)] ]} [] [].

(** An entry whose marker is not a number. *)
Definition odd_entry : Response :=
  mkResponse 200 "OK" [("sw-cache-timestamp", "yesterday")] "odd".

Definition odd_api_world : World :=
  mkWorld (Samples.T0 + 1000000000)
    {[ API_CACHE_NAME := [(href Samples.price_url, odd_entry)] ]} [] [].

(** Caches of an earlier version beside the current ones. *)
Definition upgraded_world : World :=
  mkWorld Samples.T0
    {[ "crypto-monitor-static-v1.0.0" := [(href Samples.app_js_url, Samples.old_entry)];
       "crypto-monitor-pro-v1.0.1" := [];
       STATIC_CACHE_NAME := [(href Samples.app_js_url, Samples.response_200)];
       API_CACHE_NAME := [(href Samples.price_url, Samples.old_entry)] ]} [] [].


Definition batch_price_url : URL :=
  mkURL PRICE_URL "api.coingecko.com" "/api/v3/simple/price"
    [("ids", "bitcoin,ethereum,cardano,ripple"); ("vs_currencies", "usd");
     ("include_24hr_change", "true")].

Definition batch_price_request : Request := mkRequest batch_price_url "".



(** A server that answers with a partial content. *)
Definition partial_response : Response :=
  mkResponse 206 "Partial Content" [("content-range", "bytes 0-3/10")] "part".

Definition partial_server : Env :=
  mkEnv (fun _ _ => Fetched partial_response) (fun _ _ => 40) true Samples.app_origin.

Definition home_window : WindowClient := mkWindowClient "https://app.example/" true.

End Samples2.

(** * Properties *)

(** ** The marker written by [Date.now().toString()] reads back *)

Section MarkerRoundTrip.

Import JSNumber.

Lemma digits_of_uint_acc (d : Decimal.uint) (a : positive) :
  digits 10 (NilEmpty.string_of_uint d) (Some (Z.pos a))
  = Some (Z.pos (Pos.of_uint_acc d a)).
Proof.
  revert a.
  induction d as [| d IH | d IH | d IH | d IH | d IH | d IH | d IH | d IH | d IH | d IH];
    intros a; [reflexivity | ..];
    cbn [NilEmpty.string_of_uint digits Pos.of_uint_acc];
    (match goal with
     | |- context [digit 10 ?c] =>
         let v := eval vm_compute in (digit 10 c) in
         change (digit 10 c) with v
     end);
    cbn [default]; unfold id; rewrite <- IH; do 2 f_equal; lia.
Qed.

Lemma digits_of_uint_zero (d : Decimal.uint) :
  digits 10 (NilEmpty.string_of_uint d) (Some 0) = Some (Z.of_N (Pos.of_uint d)).
Proof.
  induction d as [| d IH | d IH | d IH | d IH | d IH | d IH | d IH | d IH | d IH | d IH];
    [reflexivity | ..];
    cbn [NilEmpty.string_of_uint digits Pos.of_uint];
    (match goal with
     | |- context [digit 10 ?c] =>
         let v := eval vm_compute in (digit 10 c) in
         change (digit 10 c) with v
     end);
    cbn [default]; unfold id; first [exact IH | apply digits_of_uint_acc].
Qed.

Ltac eval_chars :=
  repeat match goal with
    | |- context [isWhiteSpace ?c] =>
        let v := eval vm_compute in (isWhiteSpace c) in
        change (isWhiteSpace c) with v
    | |- context [digit 10 ?c] =>
        let v := eval vm_compute in (digit 10 c) in
        change (digit 10 c) with v
    | H : context [digit 10 ?c] |- _ =>
        let v := eval vm_compute in (digit 10 c) in
        change (digit 10 c) with v in H
    end.

Ltac read_digits Hd :=
  cbn [NilEmpty.string_of_uint] in *; unfold parseInt;
  cbn [trimStart]; eval_chars; cbv beta iota;
  cbn [digits] in *; eval_chars; cbn [default] in *; unfold id in *;
  first [discriminate Hd | rewrite Hd; reflexivity].

Lemma parseInt_of_uint (p : positive) :
  parseInt (NilEmpty.string_of_uint (Pos.to_uint p)) = Some (Z.pos p).
Proof.
  pose proof (DecimalPos.Unsigned.of_to p) as Hp.
  pose proof (digits_of_uint_zero (Pos.to_uint p)) as Hd.
  rewrite Hp in Hd. cbn [Z.of_N] in Hd. clear Hp.
  destruct (Pos.to_uint p) as [| d | d | d | d | d | d | d | d | d | d];
    [discriminate Hd | | read_digits Hd ..].
  (* a leading "0": the next character is a digit or the end, never "x" *)
  destruct d as [| d | d | d | d | d | d | d | d | d | d]; read_digits Hd.
Qed.

(** [parseInt(t.toString())] is [t] for a time since the epoch. *)
Lemma parseInt_toString (t : Z) : 0 <= t -> parseInt (toString t) = Some t.
Proof.
  intros Ht. destruct t as [| p | p]; [reflexivity | | lia].
  unfold toString. cbn [Z.to_int NilZero.string_of_int].
  unfold NilZero.string_of_uint.
  pose proof (parseInt_of_uint p) as H.
  destruct (Pos.to_uint p) eqn:E; try exact H.
  pose proof (DecimalPos.Unsigned.of_to p) as Hp. rewrite E in Hp. discriminate Hp.
Qed.

Lemma toString_nonempty (t : Z) : String.eqb (toString t) "" = false.
Proof.
  unfold toString.
  destruct t as [| p | p]; [reflexivity | |]; cbn [Z.to_int NilZero.string_of_int].
  - unfold NilZero.string_of_uint. destruct (Pos.to_uint p); reflexivity.
  - reflexivity.
Qed.

End MarkerRoundTrip.

(** ** Caches as association lists *)

Section CacheFacts.

Implicit Types (c : Cache) (k key : string) (r : Response).

Lemma cache_lookup_app c1 c2 k :
  CacheOps.lookup (c1 ++ c2) k =
  match CacheOps.lookup c1 k with
  | Some r => Some r
  | None => CacheOps.lookup c2 k
  end.
Proof.
  induction c1 as [| [k' r'] c1 IH]; simpl; [reflexivity |].
  destruct (String.eqb k' k); [reflexivity | exact IH].
Qed.

Lemma cache_lookup_delete c key k :
  CacheOps.lookup (CacheOps.delete c key) k =
  if String.eqb key k then None else CacheOps.lookup c k.
Proof.
  induction c as [| [k' r'] c IH]; simpl.
  - destruct (String.eqb key k); reflexivity.
  - destruct (String.eqb_spec k' key) as [-> | Hne]; simpl.
    + rewrite IH. destruct (String.eqb key k); reflexivity.
    + rewrite IH. destruct (String.eqb_spec key k) as [-> | Hne'].
      * destruct (String.eqb_spec k' k); [congruence | reflexivity].
      * reflexivity.
Qed.

Lemma cache_lookup_put c key r k :
  CacheOps.lookup (CacheOps.put c key r) k =
  if String.eqb key k then Some r else CacheOps.lookup c k.
Proof.
  unfold CacheOps.put. rewrite cache_lookup_app, cache_lookup_delete. simpl.
  destruct (String.eqb key k); [reflexivity |].
  destruct (CacheOps.lookup c k); reflexivity.
Qed.

Lemma cache_lookup_keys c k r :
  CacheOps.lookup c k = Some r -> List.In k (CacheOps.keys c).
Proof.
  induction c as [| [k' r'] c IH]; simpl; [discriminate |].
  destruct (String.eqb_spec k' k) as [-> | Hne]; [now left | right; auto].
Qed.

End CacheFacts.

(** ** How the platform operations change what is stored *)

Section WorldFacts.

Implicit Types (w : World) (n k cache key name : string) (r : Response).

Lemma stored_opened name w n k : stored (opened name w) n k = stored w n k.
Proof.
  unfold stored, entries, opened, with_caches; cbn [caches].
  destruct (caches w !! name) eqn:E; [reflexivity |].
  destruct (String.eqb_spec name n) as [-> | Hne].
  - rewrite lookup_insert_eq, E. reflexivity.
  - rewrite lookup_insert_ne by exact Hne. reflexivity.
Qed.

Lemma stored_put_in cache key r w n k :
  stored (put_in cache key r w) n k =
  if String.eqb cache n && String.eqb key k then Some r else stored w n k.
Proof.
  unfold stored, entries, put_in, with_caches; cbn [caches].
  destruct (String.eqb_spec cache n) as [-> | Hne]; simpl.
  - rewrite lookup_insert_eq. simpl. apply cache_lookup_put.
  - rewrite lookup_insert_ne by exact Hne. reflexivity.
Qed.

Lemma stored_put_accepted cache key r w n k :
  stored (put_accepted cache key r w) n k =
  if storable r && String.eqb cache n && String.eqb key k then Some r
  else stored w n k.
Proof.
  unfold put_accepted. destruct (storable r); [| reflexivity].
  apply stored_put_in.
Qed.

Lemma stored_deleted_in cache key w n k :
  stored (deleted_in cache key w) n k =
  if String.eqb cache n && String.eqb key k then None else stored w n k.
Proof.
  unfold stored, entries, deleted_in, with_caches; cbn [caches].
  destruct (String.eqb_spec cache n) as [-> | Hne]; simpl.
  - rewrite lookup_insert_eq. simpl. apply cache_lookup_delete.
  - rewrite lookup_insert_ne by exact Hne. reflexivity.
Qed.

Lemma stored_exchanged env u w n k : stored (exchanged env u w) n k = stored w n k.
Proof. reflexivity. Qed.

Lemma stored_spawned t w n k : stored (spawned t w) n k = stored w n k.
Proof. reflexivity. Qed.

Lemma stored_with_now t w n k : stored (with_now t w) n k = stored w n k.
Proof. reflexivity. Qed.

Lemma entries_opened name w n : entries (opened name w) n = entries w n.
Proof.
  unfold entries, opened, with_caches; cbn [caches].
  destruct (caches w !! name) eqn:E; [reflexivity |].
  destruct (String.eqb_spec name n) as [-> | Hne].
  - rewrite lookup_insert_eq, E. reflexivity.
  - rewrite lookup_insert_ne by exact Hne. reflexivity.
Qed.

Lemma now_opened name w : now (opened name w) = now w.
Proof. reflexivity. Qed.
Lemma now_put_in cache key r w : now (put_in cache key r w) = now w.
Proof. reflexivity. Qed.
Lemma now_put_accepted cache key r w : now (put_accepted cache key r w) = now w.
Proof. unfold put_accepted. now destruct (storable r). Qed.
Lemma now_deleted_in cache key w : now (deleted_in cache key w) = now w.
Proof. reflexivity. Qed.
Lemma now_exchanged env u w :
  now (exchanged env u w) = now w + latency env (now w) u.
Proof. reflexivity. Qed.
Lemma now_spawned t w : now (spawned t w) = now w.
Proof. reflexivity. Qed.

Lemma fetched_opened name w : fetched (opened name w) = fetched w.
Proof. reflexivity. Qed.
Lemma fetched_put_in cache key r w : fetched (put_in cache key r w) = fetched w.
Proof. reflexivity. Qed.
Lemma fetched_put_accepted cache key r w :
  fetched (put_accepted cache key r w) = fetched w.
Proof. unfold put_accepted. now destruct (storable r). Qed.
Lemma fetched_deleted_in cache key w : fetched (deleted_in cache key w) = fetched w.
Proof. reflexivity. Qed.
Lemma fetched_exchanged env u w : fetched (exchanged env u w) = fetched w ++ [u].
Proof. reflexivity. Qed.
Lemma fetched_spawned t w : fetched (spawned t w) = fetched w.
Proof. reflexivity. Qed.

Lemma detached_opened name w : detached (opened name w) = detached w.
Proof. reflexivity. Qed.
Lemma detached_put_in cache key r w : detached (put_in cache key r w) = detached w.
Proof. reflexivity. Qed.
Lemma detached_put_accepted cache key r w :
  detached (put_accepted cache key r w) = detached w.
Proof. unfold put_accepted. now destruct (storable r). Qed.
Lemma detached_deleted_in cache key w : detached (deleted_in cache key w) = detached w.
Proof. reflexivity. Qed.
Lemma detached_exchanged env u w : detached (exchanged env u w) = detached w.
Proof. reflexivity. Qed.
Lemma detached_spawned t w : detached (spawned t w) = detached w ++ [t].
Proof. reflexivity. Qed.

End WorldFacts.

(** Unfolding the promise combinators and the platform operations. *)
Ltac run :=
  unfold mbind, M_bind, bind, mret, M_ret, ret, try_catch,
    caches_open, cache_match, cache_put, cache_delete, cache_keys,
    fetch, spawn, Date_now in *.

Ltac simpl_stored :=
  repeat progress rewrite ?stored_opened, ?stored_put_in, ?stored_put_accepted,
    ?stored_deleted_in,
    ?stored_exchanged, ?stored_spawned, ?stored_with_now, ?entries_opened in *.

Ltac simpl_world :=
  repeat progress rewrite ?now_opened, ?now_put_in, ?now_put_accepted,
    ?fetched_put_accepted, ?detached_put_accepted,
    ?now_deleted_in, ?now_exchanged, ?now_spawned,
    ?fetched_opened, ?fetched_put_in, ?fetched_deleted_in, ?fetched_exchanged,
    ?fetched_spawned, ?detached_opened, ?detached_put_in, ?detached_deleted_in,
    ?detached_exchanged, ?detached_spawned in *.

(** Following a handler through its branches: one case per answer of the
    network, per [ok] test, per cache lookup and per freshness test. *)
Ltac branch :=
  match goal with
  | |- context [match network ?e ?t ?u with _ => _ end] =>
      let E := fresh "Enet" in destruct (network e t u) eqn:E
  | |- context [if ok ?r then _ else _] =>
      let E := fresh "Eok" in destruct (ok r) eqn:E
  | |- context [match stored ?w ?n ?k with _ => _ end] =>
      let E := fresh "Est" in destruct (stored w n k) eqn:E
  | |- context [if isCacheExpired ?t ?r ?m then _ else _] =>
      let E := fresh "Eexp" in destruct (isCacheExpired t r m) eqn:E
  | |- context [if fresh ?t ?c ?m then _ else _] =>
      let E := fresh "Efresh" in destruct (fresh t c m) eqn:E
  | |- context [if String.eqb (destination ?r) ?d then _ else _] =>
      let E := fresh "Edest" in destruct (String.eqb (destination r) d) eqn:E
  | |- context [if storage_available ?e then _ else _] =>
      let E := fresh "Eopen" in destruct (storage_available e) eqn:E
  end.

Ltac reduce := repeat progress (cbv beta iota; simpl_world; simpl_stored).

Ltac follow :=
  run; repeat (simpl_world; simpl_stored; cbv beta iota; try branch).


(** ** The periodic cleanup, entry by entry *)

Section Cleanup.

Implicit Types (w : World) (n k cache : string) (r : Response).

Lemma keys_member (c : Cache) k r :
  CacheOps.lookup c k = Some r ->
  List.existsb (String.eqb k) (CacheOps.keys c) = true.
Proof.
  intros H. apply List.existsb_exists. exists k. split.
  - eapply cache_lookup_keys; eassumption.
  - apply String.eqb_refl.
Qed.

(** What one pass over the keys of a cache leaves: an entry goes when its
    key is among the requests and it is expired under the api duration. *)
Lemma cleanup_requests_spec cache (requests : list string) :
  forall w,
    let w' := snd (cleanup_requests cache requests w) in
    fst (cleanup_requests cache requests w) = Resolved tt
    /\ now w' = now w
    /\ forall n k,
         stored w' n k =
         match stored w n k with
         | Some r =>
             if String.eqb cache n && List.existsb (String.eqb k) requests
                && isCacheExpired (now w) r CACHE_DURATIONS.api
             then None else Some r
         | None => None
         end.
Proof.
  induction requests as [| q rest IH]; intros w; cbn [cleanup_requests].
  - run. cbn [fst snd]. repeat split; intros.
    destruct (stored w n k); [| reflexivity].
    now rewrite andb_false_r.
  - run.
    destruct (stored w cache q) as [rq |] eqn:Eq;
      [destruct (isCacheExpired (now w) rq CACHE_DURATIONS.api) eqn:Ex |];
      cbv beta iota;
      match goal with
      | |- context [cleanup_requests cache rest ?w1] =>
          destruct (IH w1) as (Hres & Hnow & Hst)
      end;
      (split; [exact Hres |]); (split; [exact Hnow |]);
      intros n k; rewrite Hst; clear Hst Hres Hnow IH;
      rewrite ?stored_deleted_in; cbn [List.existsb];
      rewrite (String.eqb_sym k q);
      change (now (deleted_in cache q w)) with (now w);
      destruct (String.eqb_spec cache n) as [<- | Hn]; cbn [andb];
      try reflexivity;
      destruct (String.eqb_spec q k) as [<- | Hk]; cbn [andb orb];
      rewrite ?Eq, ?Ex; cbn [andb orb]; rewrite ?Ex, ?andb_false_r;
      reflexivity.
Qed.

(** One cache cleaned: open it, list its keys, pass over them. *)
Lemma cleanup_cache_stored env cache w :
  storage_available env = true ->
  let w' := snd (cleanup_requests cache (CacheOps.keys (entries (opened cache w) cache))
                   (opened cache w)) in
  now w' = now w
  /\ forall n k,
       stored w' n k =
       match stored w n k with
       | Some r =>
           if String.eqb cache n && isCacheExpired (now w) r CACHE_DURATIONS.api
           then None else Some r
       | None => None
       end.
Proof.
  intros _. cbn zeta.
  destruct (cleanup_requests_spec cache
              (CacheOps.keys (entries (opened cache w) cache)) (opened cache w))
    as (_ & Hnow & Hst).
  cbn zeta in Hnow, Hst. split; [exact Hnow |].
  intros n k. rewrite Hst, stored_opened. clear Hst.
  destruct (stored w n k) as [r |] eqn:E; [| reflexivity].
  destruct (String.eqb_spec cache n) as [<- | Hn]; [| reflexivity].
  rewrite entries_opened.
  unfold stored in E. rewrite (keys_member _ _ _ E). reflexivity.
Qed.

(** What the body of the hourly timer leaves in every cache. *)
Lemma periodic_cleanup_stored env w :
  storage_available env = true ->
  forall n k,
    stored (snd (periodic_cleanup env w)) n k =
    match stored w n k with
    | Some r =>
        if (String.eqb API_CACHE_NAME n || String.eqb DYNAMIC_CACHE_NAME n)
           && isCacheExpired (now w) r CACHE_DURATIONS.api
        then None else Some r
    | None => None
    end.
Proof.
  intros Hs n k.
  unfold periodic_cleanup. cbn [cleanup_caches]. run. rewrite Hs.
  destruct (cleanup_requests_spec API_CACHE_NAME
              (CacheOps.keys (entries (opened API_CACHE_NAME w) API_CACHE_NAME))
              (opened API_CACHE_NAME w)) as (Hr1 & _ & _).
  destruct (cleanup_cache_stored env API_CACHE_NAME w Hs) as (Hnow1 & Hst1).
  cbn zeta in Hnow1, Hst1.
  destruct (cleanup_requests API_CACHE_NAME _ (opened API_CACHE_NAME w))
    as [o1 w1] eqn:E1.
  cbn [fst snd] in *. subst o1.
  destruct (cleanup_requests_spec DYNAMIC_CACHE_NAME
              (CacheOps.keys (entries (opened DYNAMIC_CACHE_NAME w1) DYNAMIC_CACHE_NAME))
              (opened DYNAMIC_CACHE_NAME w1)) as (Hr2 & _ & _).
  destruct (cleanup_cache_stored env DYNAMIC_CACHE_NAME w1 Hs) as (Hnow2 & Hst2).
  cbn zeta in Hnow2, Hst2.
  destruct (cleanup_requests DYNAMIC_CACHE_NAME _ (opened DYNAMIC_CACHE_NAME w1))
    as [o2 w2] eqn:E2.
  cbn [fst snd] in *. subst o2. cbn [fst snd].
  rewrite Hst2, Hst1, Hnow1.
  destruct (stored w n k) as [r |]; [| reflexivity].
  destruct (String.eqb API_CACHE_NAME n);
    destruct (String.eqb DYNAMIC_CACHE_NAME n);
    destruct (isCacheExpired (now w) r CACHE_DURATIONS.api) eqn:Ex;
    cbn [andb orb]; rewrite ?Ex; reflexivity.
Qed.

End Cleanup.

(** ** Stamping and what the cache accepts *)

Lemma varies_on_all_remove (h : Headers) (name : string) :
  String.eqb name "vary" = false ->
  varies_on_all (HeadersOps.remove h name) = varies_on_all h.
Proof.
  intros Hname. unfold varies_on_all, HeadersOps.remove.
  induction h as [| [n v] h IH]; cbn [List.filter List.existsb fst snd];
    [reflexivity |].
  destruct (String.eqb_spec n name) as [-> | Hn]; cbn [negb List.existsb fst snd].
  - rewrite Hname. cbn [andb orb]. exact IH.
  - now rewrite IH.
Qed.

Lemma varies_on_all_set (h : Headers) (name value : string) :
  String.eqb name "vary" = false ->
  varies_on_all (HeadersOps.set h name value) = varies_on_all h.
Proof.
  intros Hname.
  induction h as [| [n v] h IH]; cbn [HeadersOps.set].
  - unfold varies_on_all. cbn. now rewrite Hname.
  - destruct (String.eqb_spec n name) as [-> | Hn].
    + change (varies_on_all ((name, value) :: HeadersOps.remove h name))
        with (String.eqb name "vary"
                && List.existsb (String.eqb "*") (HTTP.field_values value)
              || varies_on_all (HeadersOps.remove h name)).
      change (varies_on_all ((name, v) :: h))
        with (String.eqb name "vary"
                && List.existsb (String.eqb "*") (HTTP.field_values v)
              || varies_on_all h).
      rewrite Hname, varies_on_all_remove by exact Hname. reflexivity.
    + change (varies_on_all ((n, v) :: HeadersOps.set h name value))
        with (String.eqb n "vary"
                && List.existsb (String.eqb "*") (HTTP.field_values v)
              || varies_on_all (HeadersOps.set h name value)).
      now rewrite IH.
Qed.

(** Stamping changes neither the status nor the [Vary] header: the cache
    accepts the stamped copy exactly when it accepts the response. *)
Lemma storable_stamped (t : Z) (r : Response) : storable (stamped t r) = storable r.
Proof.
  unfold storable, stamped, new_Response_from. cbn [status headers].
  now rewrite varies_on_all_set.
Qed.

(** ** The classifier *)

Example classify_api_before_static :
  isAPIRequest Samples.api_script_url = true
  /\ isStaticAsset Samples.api_script_url = true
  /\ classify Samples.api_script_url = api.
Proof. repeat split; reflexivity. Qed.

Example classify_samples :
  classify Samples.price_url = api
  /\ classify Samples.app_js_url = static
  /\ classify Samples.logo_url = image
  /\ classify Samples.about_url = dynamic.
Proof. repeat split; reflexivity. Qed.

(** C8. Every request whose URL starts with [http] is handed to the
    handler of exactly one class, the value of the function [classify]:
    api when the api predicate holds; otherwise static when the static
    predicate holds; otherwise image when the image predicate holds;
    otherwise dynamic. *)
Theorem classification_total_first_match (env : Env) (request : Request) :
  startsWith (request_url request) "http" = true ->
  let url := request_URL request in
  fetch_listener env request = Some (handler_of (classify url) env request)
  /\ (isAPIRequest url = true -> classify url = api)
  /\ (isAPIRequest url = false -> isStaticAsset url = true ->
      classify url = static)
  /\ (isAPIRequest url = false -> isStaticAsset url = false ->
      isImageRequest url = true -> classify url = image)
  /\ (isAPIRequest url = false -> isStaticAsset url = false ->
      isImageRequest url = false -> classify url = dynamic)
  /\ (exists! c : Class, classify url = c).
Proof.
  intros Hhttp url. unfold fetch_listener, classify. fold url. rewrite Hhttp.
  cbn [negb].
  repeat split.
  - destruct (isAPIRequest url), (isStaticAsset url), (isImageRequest url);
      reflexivity.
  - intros ->. reflexivity.
  - intros -> ->. reflexivity.
  - intros -> -> ->. reflexivity.
  - intros -> -> ->. reflexivity.
  - exists (classify url). split; [reflexivity | intros c <-; reflexivity].
Qed.

Lemma classification_total_first_match_witness :
  startsWith (request_url Samples.api_script_request) "http" = true
  /\ fetch_listener Samples.online Samples.api_script_request
     = Some (handleAPIRequest Samples.online Samples.api_script_request).
Proof.
  split; [reflexivity |].
  exact (proj1 (classification_total_first_match Samples.online
                  Samples.api_script_request eq_refl)).
Defined.

(** ** The api handler without network *)

(** With the network down and nothing cached, the answer has status 503,
    and its body has neither an [errorKind] nor an [httpStatus] field, nor
    the value [offline] in lower case. *)
Lemma api_offline_payload_has_other_fields :
  exists answer,
    fst (handleAPIRequest Samples.offline Samples.price_request Samples.empty_world)
    = Resolved (Some answer)
    /\ status answer = 503
    /\ includes (body answer) "errorKind" = false
    /\ includes (body answer) "httpStatus" = false
    /\ includes (body answer) "offline" = false
    /\ includes (body answer) "Offline" = true.
Proof. eexists. vm_compute. repeat split. Qed.

(** C7, as the code has it. When the network fetch fails, the api handler
    answers with the cached entry when there is one, stale or not, and
    otherwise with a response of status 503 and content type
    [application/json] whose body is the text
    [{"error":"Offline","message":"Network unavailable. Please check your
    connection.","cached":false}]. *)
Theorem api_offline_answer (env : Env) (request : Request) (w : World) :
  storage_available env = true ->
  network env (now w) (request_url request) = NetworkError ->
  fst (handleAPIRequest env request w) =
    Resolved
      (Some
         (match stored w API_CACHE_NAME (request_url request) with
          | Some cached => cached
          | None =>
              {| status := 503;
                 statusText := "";
                 headers := [("content-type", "application/json")];
                 body :=
                   "{" +:+ String "034" ("error" +:+ String "034" (":" +:+
                   String "034" ("Offline" +:+ String "034" ("," +:+
                   String "034" ("message" +:+ String "034" (":" +:+
                   String "034" ("Network unavailable. Please check your connection."
                   +:+ String "034" ("," +:+
                   String "034" ("cached" +:+ String "034" ":false}"))))))))) |}
          end)).
Proof.
  intros Hs Hnet.
  unfold handleAPIRequest. follow; cbn [fst]; try congruence.
  all: cbn [fresh] in *; try discriminate.
  all: reflexivity.
Qed.

Lemma api_offline_answer_witness :
  (exists answer,
     fst (handleAPIRequest Samples.offline Samples.price_request Samples.empty_world)
     = Resolved (Some answer) /\ status answer = 503)
  /\ fst (handleAPIRequest Samples.offline Samples.price_request Samples.stale_api_world)
     = Resolved (Some Samples.old_entry).
Proof.
  split.
  - eexists. split.
    + exact (api_offline_answer Samples.offline Samples.price_request
               Samples.empty_world eq_refl eq_refl).
    + reflexivity.
  - exact (api_offline_answer Samples.offline Samples.price_request
             Samples.stale_api_world eq_refl eq_refl).
Defined.

(** ** Freshness of stamped and of unmarked entries *)

Lemma headers_get_set (h : Headers) (name value : string) :
  HeadersOps.get (HeadersOps.set h name value) name = Some value.
Proof.
  induction h as [| [n v] h IH]; cbn [HeadersOps.set HeadersOps.get].
  - now rewrite String.eqb_refl.
  - destruct (String.eqb n name) eqn:E; cbn [HeadersOps.get].
    + now rewrite String.eqb_refl.
    + now rewrite E.
Qed.

Lemma isCacheExpired_marker (t0 t : Z) (r : Response) (maxAge : Z) :
  0 <= t0 ->
  HeadersOps.get (headers r) MARKER = Some (JSNumber.toString t0) ->
  isCacheExpired t r maxAge = (t - t0 >? maxAge).
Proof.
  intros Ht0 Hm. unfold isCacheExpired.
  now rewrite Hm, toString_nonempty, parseInt_toString.
Qed.



Lemma ok_stamped (t : Z) (r : Response) : ok (stamped t r) = ok r.
Proof. reflexivity. Qed.

(** ** The hourly sweep *)

(** In the api cache the sweep removes the stamped entries older than the
    api duration and keeps the younger ones. *)
Lemma cleanup_api_by_age (env : Env) (w : World) (k : string) (r : Response) (t0 : Z) :
  storage_available env = true ->
  stored w API_CACHE_NAME k = Some r ->
  0 <= t0 ->
  HeadersOps.get (headers r) MARKER = Some (JSNumber.toString t0) ->
  stored (snd (periodic_cleanup env w)) API_CACHE_NAME k =
  if now w - t0 >? CACHE_DURATIONS.api then None else Some r.
Proof.
  intros Hs Hst Ht0 Hm.
  rewrite (periodic_cleanup_stored env w Hs), Hst.
  rewrite (isCacheExpired_marker t0 _ _ _ Ht0 Hm). reflexivity.
Qed.

(** C1. In the dynamic cache the sweep compares the age of an entry with
    the api duration (5 minutes), not with the dynamic one (1 hour): a
    stamped entry older than 5 minutes and no older than 1 hour is removed. *)
Theorem cleanup_dynamic_uses_api_duration
    (env : Env) (w : World) (k : string) (r : Response) (t0 : Z) :
  storage_available env = true ->
  stored w DYNAMIC_CACHE_NAME k = Some r ->
  0 <= t0 ->
  HeadersOps.get (headers r) MARKER = Some (JSNumber.toString t0) ->
  CACHE_DURATIONS.api < now w - t0 <= CACHE_DURATIONS.dynamic ->
  stored (snd (periodic_cleanup env w)) DYNAMIC_CACHE_NAME k = None.
Proof.
  intros Hs Hst Ht0 Hm [Hlo Hhi].
  rewrite (periodic_cleanup_stored env w Hs), Hst.
  rewrite (isCacheExpired_marker t0 _ _ _ Ht0 Hm).
  replace (now w - t0 >? CACHE_DURATIONS.api) with true
    by (symmetry; apply Z.gtb_lt; exact Hlo).
  reflexivity.
Qed.

Lemma cleanup_dynamic_uses_api_duration_witness :
  stored Samples.ten_minute_image_world DYNAMIC_CACHE_NAME (href Samples.logo_url)
  = Some Samples.old_entry
  /\ now Samples.ten_minute_image_world - Samples.T0 = 10 * 60 * 1000
  /\ stored (snd (periodic_cleanup Samples.online Samples.ten_minute_image_world))
       DYNAMIC_CACHE_NAME (href Samples.logo_url) = None.
Proof.
  split; [reflexivity |]. split; [reflexivity |].
  apply (cleanup_dynamic_uses_api_duration Samples.online
           Samples.ten_minute_image_world (href Samples.logo_url)
           Samples.old_entry Samples.T0).
  - reflexivity.
  - reflexivity.
  - unfold Samples.T0. lia.
  - reflexivity.
  - vm_compute. split; [reflexivity | discriminate].
Defined.

(** ** Entries without a marker *)






(** ** Only ok responses are stored *)

Section OnlyOk.

Implicit Types (w : World) (r : Response).

Lemma only_ok_added_refl w : only_ok_added w w.
Proof. intros n k r H. now left. Qed.

Lemma only_ok_added_same w w1 w2 :
  only_ok_added w w1 -> same_entries w1 w2 -> only_ok_added w w2.
Proof. intros H1 H2 n k r H. apply H1. now rewrite <- H2. Qed.

Lemma only_ok_added_put w w1 cache key r :
  ok r = true -> only_ok_added w w1 -> only_ok_added w (put_in cache key r w1).
Proof.
  intros Hok H1 n k r'. rewrite stored_put_in.
  destruct (String.eqb cache n && String.eqb key k).
  - intros [= <-]. now right.
  - apply H1.
Qed.

Lemma only_ok_added_put_accepted w w1 cache key r :
  ok r = true -> only_ok_added w w1 ->
  only_ok_added w (put_accepted cache key r w1).
Proof.
  intros Hok H1. unfold put_accepted.
  destruct (storable r); [now apply only_ok_added_put | exact H1].
Qed.

Lemma only_ok_added_opened w w1 name :
  only_ok_added w w1 -> only_ok_added w (opened name w1).
Proof. intros H1 n k r'. rewrite stored_opened. apply H1. Qed.

Lemma only_ok_added_exchanged w w1 env u :
  only_ok_added w w1 -> only_ok_added w (exchanged env u w1).
Proof. intros H1 n k r'. apply H1. Qed.

Lemma only_ok_added_spawned w w1 t :
  only_ok_added w w1 -> only_ok_added w (spawned t w1).
Proof. intros H1 n k r'. apply H1. Qed.

Lemma same_entries_refl w : same_entries w w.
Proof. intros n k. reflexivity. Qed.

Lemma same_entries_opened w w1 name :
  same_entries w w1 -> same_entries w (opened name w1).
Proof. intros H n k. rewrite stored_opened. apply H. Qed.

Lemma same_entries_exchanged w w1 env u :
  same_entries w w1 -> same_entries w (exchanged env u w1).
Proof. intros H n k. apply H. Qed.

Lemma same_entries_spawned w w1 t :
  same_entries w w1 -> same_entries w (spawned t w1).
Proof. intros H n k. apply H. Qed.

End OnlyOk.

Create HintDb entries.
#[global] Hint Resolve only_ok_added_refl only_ok_added_put
  only_ok_added_put_accepted only_ok_added_opened
  only_ok_added_exchanged only_ok_added_spawned same_entries_refl
  same_entries_opened same_entries_exchanged same_entries_spawned : entries.

Lemma updateAPICache_only_ok (env : Env) (request : Request) (cache : string)
    (w w1 : World) :
  only_ok_added w w1 ->
  only_ok_added w (snd (updateAPICache env request cache w1)).
Proof.
  intros H. unfold updateAPICache. follow; cbn [snd]; auto with entries.
Qed.

Lemma run_detached_only_ok (env : Env) (w w1 : World) :
  only_ok_added w w1 -> only_ok_added w (snd (run_detached env w1)).
Proof.
  intros H. unfold run_detached. cbn [snd].
  set (w0 := {| now := now w1; caches := caches w1; fetched := fetched w1;
                detached := [] |}).
  assert (H0 : only_ok_added w w0) by exact H.
  clearbody w0. revert w0 H0.
  induction (detached w1) as [| t rest IH]; intros w0 H0; cbn [List.fold_left].
  - exact H0.
  - apply IH. destruct t as [request cache]. cbn [run_task].
    now apply updateAPICache_only_ok.
Qed.

Lemma fetched_grows (l : list string) (u : string) : l ++ [u] <> l.
Proof.
  intros H. apply (f_equal (@List.length string)) in H.
  rewrite List.length_app in H. cbn in H. lia.
Qed.

(** C9. Whatever a strategy handler (or the background update it starts)
    adds to a cache is a response whose status is ok; when the handler
    consults the network and the answer is not ok, that answer is returned
    and nothing is stored. *)
Theorem handlers_store_only_ok (c : Class) (env : Env) (request : Request) (w : World) :
  let w' := snd (handler_of c env request w) in
  only_ok_added w w'
  /\ only_ok_added w (snd (run_detached env w'))
  /\ forall r,
       fetched w' <> fetched w ->
       network env (now w) (request_url request) = Fetched r ->
       ok r = false ->
       fst (handler_of c env request w) = Resolved (Some r) /\ same_entries w w'.
Proof.
  cbn zeta.
  assert (Hadd : only_ok_added w (snd (handler_of c env request w))).
  { destruct c; cbn [handler_of];
      [unfold handleAPIRequest | unfold handleStaticAsset
      | unfold handleImageRequest | unfold handleDynamicRequest];
      follow; cbn [snd]; rewrite <- ?ok_stamped; auto 10 with entries. }
  split; [exact Hadd |]. split; [now apply run_detached_only_ok |].
  intros r. clear Hadd.
  destruct c; cbn [handler_of];
    [unfold handleAPIRequest | unfold handleStaticAsset
    | unfold handleImageRequest | unfold handleDynamicRequest];
    follow; cbn [fst snd]; simpl_world;
    intros Hf Hnet Hr;
    try congruence; try (exfalso; apply Hf; reflexivity);
    (split; [congruence | auto 10 with entries]).
Qed.

Lemma handlers_store_only_ok_witness :
  fst (handler_of dynamic Samples.failing_server Samples.about_request
         Samples.empty_world)
  = Resolved (Some Samples.response_500)
  /\ same_entries Samples.empty_world
       (snd (handler_of dynamic Samples.failing_server Samples.about_request
               Samples.empty_world)).
Proof.
  destruct (handlers_store_only_ok dynamic Samples.failing_server
              Samples.about_request Samples.empty_world) as (_ & _ & H).
  apply (H Samples.response_500); [| reflexivity | reflexivity].
  vm_compute. discriminate.
Defined.

(** ** The api handler and a stale entry *)

(** A stale entry and a reachable network: the handler waits for the
    network and answers with what it sent; nothing is started in the
    background. *)
Lemma api_stale_entry_not_served :
  let out := handleAPIRequest Samples.online Samples.price_request
               Samples.stale_api_world in
  stored Samples.stale_api_world API_CACHE_NAME (request_url Samples.price_request)
  = Some Samples.old_entry
  /\ isCacheExpired (now Samples.stale_api_world) Samples.old_entry
       CACHE_DURATIONS.api = true
  /\ fst out = Resolved (Some Samples.response_200)
  /\ fst out <> Resolved (Some Samples.old_entry)
  /\ fetched (snd out) = [request_url Samples.price_request]
  /\ detached (snd out) = [].
Proof. vm_compute. repeat split; discriminate. Qed.

(** C2, as the code has it. With an entry in the api cache: when the entry
    is stale the handler awaits the network, answers with the network
    response (a stamped copy replaces the entry when the response is ok
    and the cache accepts it, otherwise the stale entry stays) and falls
    back to the stale entry only when the fetch fails; when the entry is
    fresh the handler answers with it without awaiting the network and
    starts one detached background update. *)
Theorem api_cached_entry_paths (env : Env) (request : Request) (w : World)
    (cached : Response) :
  storage_available env = true ->
  stored w API_CACHE_NAME (request_url request) = Some cached ->
  let u := request_url request in
  let out := handleAPIRequest env request w in
  if isCacheExpired (now w) cached CACHE_DURATIONS.api then
    fetched (snd out) = fetched w ++ [u]
    /\ detached (snd out) = detached w
    /\ match network env (now w) u with
       | Fetched r =>
           fst out = Resolved (Some r)
           /\ stored (snd out) API_CACHE_NAME u =
              Some (if ok r && storable r
                    then stamped (now w + latency env (now w) u) r
                    else cached)
       | NetworkError =>
           fst out = Resolved (Some cached) /\ same_entries w (snd out)
       end
  else
    fst out = Resolved (Some cached)
    /\ fetched (snd out) = fetched w
    /\ detached (snd out) = detached w ++ [BackgroundUpdate request API_CACHE_NAME]
    /\ same_entries w (snd out).
Proof.
  intros Hs Hst u out. subst out u.
  unfold handleAPIRequest. run. rewrite Hs.
  cbv beta iota. simpl_world. simpl_stored. rewrite Hst. cbn [fresh].
  destruct (isCacheExpired (now w) cached CACHE_DURATIONS.api); cbn [negb];
    cbv beta iota; simpl_world.
  - destruct (network env (now w) (request_url request)) as [r |] eqn:Enet;
      [destruct (ok r) eqn:Eok |]; cbv beta iota; cbn [fst snd];
      simpl_world; simpl_stored;
      rewrite ?storable_stamped, ?String.eqb_refl, ?andb_true_r, ?Hst;
      cbn [andb]; try (destruct (storable r)); auto 10 with entries.
  - cbn [fst snd]. simpl_world. auto 10 with entries.
Qed.

Lemma api_cached_entry_paths_witness :
  let out := handleAPIRequest Samples.offline Samples.price_request
               Samples.stale_api_world in
  fetched (snd out) = [request_url Samples.price_request]
  /\ detached (snd out) = []
  /\ fst out = Resolved (Some Samples.old_entry)
  /\ same_entries Samples.stale_api_world (snd out).
Proof.
  pose proof (api_cached_entry_paths Samples.offline Samples.price_request
                Samples.stale_api_world Samples.old_entry eq_refl eq_refl) as H.
  cbn zeta in H.
  change (isCacheExpired (now Samples.stale_api_world) Samples.old_entry
            CACHE_DURATIONS.api) with true in H.
  cbv iota in H.
  destruct H as (Hf & Hd & Hr & Hsame).
  repeat split; assumption.
Defined.

(** ** Requests left without a response *)

(** C3. A document request that is not cached, with the network down and
    no [/index.html] in the static cache: the static handler and the
    dynamic handler both resolve to [undefined], not to a response. *)
Theorem document_fallback_missing_resolves_to_nothing
    (env : Env) (request : Request) (w : World) :
  storage_available env = true ->
  network env (now w) (request_url request) = NetworkError ->
  destination request = "document" ->
  stored w STATIC_CACHE_NAME (resolve env "/index.html") = None ->
  (stored w STATIC_CACHE_NAME (request_url request) = None ->
   fst (handleStaticAsset env request w) = Resolved None)
  /\ (stored w DYNAMIC_CACHE_NAME (request_url request) = None ->
      fst (handleDynamicRequest env request w) = Resolved None).
Proof.
  intros Hs Hnet Hdoc Hidx. split; intros Hmiss.
  - unfold handleStaticAsset. run. rewrite Hs. reduce.
    rewrite Hmiss. reduce. rewrite Hnet. reduce.
    rewrite Hdoc, String.eqb_refl. reduce. cbn [fst].
    exact (f_equal Resolved Hidx).
  - unfold handleDynamicRequest. run. rewrite Hnet, Hs. reduce.
    rewrite Hmiss. reduce. rewrite Hdoc, String.eqb_refl. reduce. cbn [fst].
    exact (f_equal Resolved Hidx).
Qed.

Lemma document_fallback_missing_resolves_to_nothing_witness :
  fst (handleStaticAsset Samples.offline Samples.app_js_navigation
         Samples.empty_world) = Resolved None
  /\ fst (handleDynamicRequest Samples.offline Samples.about_request
            Samples.empty_world) = Resolved None.
Proof.
  split.
  - exact (proj1 (document_fallback_missing_resolves_to_nothing Samples.offline
                    Samples.app_js_navigation Samples.empty_world
                    eq_refl eq_refl eq_refl eq_refl) eq_refl).
  - exact (proj2 (document_fallback_missing_resolves_to_nothing Samples.offline
                    Samples.about_request Samples.empty_world
                    eq_refl eq_refl eq_refl eq_refl) eq_refl).
Defined.

(** ** When the cache storage does not open *)

(** The storage does not open, the network is up: the api handler rejects
    and never asks the network. *)
Lemma api_request_fails_without_storage :
  let out := handleAPIRequest Samples.no_storage Samples.price_request
               Samples.empty_world in
  storage_available Samples.no_storage = false
  /\ network Samples.no_storage (now Samples.empty_world)
       (request_url Samples.price_request) = Fetched Samples.response_200
  /\ fst out = Rejected StorageUnavailable
  /\ fetched (snd out) = [].
Proof. vm_compute. repeat split. Qed.

(** C4, as the code has it. When [caches.open] fails the api, static and
    image handlers reject before asking the network; the dynamic handler
    asks the network first and answers only with a response that is not
    ok, rejecting when the response is ok or when the network fails. *)
Theorem handlers_without_storage (env : Env) (request : Request) (w : World) :
  storage_available env = false ->
  handleAPIRequest env request w = (Rejected StorageUnavailable, w)
  /\ handleStaticAsset env request w = (Rejected StorageUnavailable, w)
  /\ handleImageRequest env request w = (Rejected StorageUnavailable, w)
  /\ fst (handleDynamicRequest env request w) =
     match network env (now w) (request_url request) with
     | Fetched r => if ok r then Rejected StorageUnavailable else Resolved (Some r)
     | NetworkError => Rejected StorageUnavailable
     end
  /\ fetched (snd (handleDynamicRequest env request w))
     = fetched w ++ [request_url request].
Proof.
  intros Hs.
  repeat split;
    [unfold handleAPIRequest | unfold handleStaticAsset
    | unfold handleImageRequest | unfold handleDynamicRequest
    | unfold handleDynamicRequest];
    run; rewrite Hs; try reflexivity.
  - destruct (network env (now w) (request_url request)) as [r |];
      [destruct (ok r) |]; reflexivity.
  - destruct (network env (now w) (request_url request)) as [r |];
      [destruct (ok r) |]; reflexivity.
Qed.

Lemma handlers_without_storage_witness :
  handleAPIRequest Samples.no_storage Samples.price_request Samples.empty_world
  = (Rejected StorageUnavailable, Samples.empty_world)
  /\ fst (handleDynamicRequest Samples.no_storage Samples.about_request
            Samples.empty_world) = Rejected StorageUnavailable.
Proof.
  destruct (handlers_without_storage Samples.no_storage Samples.price_request
              Samples.empty_world eq_refl) as (Hapi & _).
  destruct (handlers_without_storage Samples.no_storage Samples.about_request
              Samples.empty_world eq_refl) as (_ & _ & _ & Hdyn & _).
  split; [exact Hapi | exact Hdyn].
Defined.

(** ** The update-cache command *)


Lemma put_answers_stored (cache key : string) (r : Response)
    (answers : list (string * FetchResult)) :
  (forall a, List.In a answers -> fst a = key -> snd a = Fetched r) ->
  forall w,
    List.In (key, Fetched r) answers \/ stored w cache key = Some r ->
    stored (List.fold_left (put_answer cache) answers w) cache key = Some r.
Proof.
  induction answers as [| [k a] rest IH]; intros Hsame w Hin; cbn [List.fold_left].
  - destruct Hin as [[] | H]. exact H.
  - apply IH; [intros a' Ha'; apply Hsame; now right |].
    destruct (String.eqb_spec k key) as [-> | Hne].
    + right. pose proof (Hsame (key, a) (or_introl eq_refl) eq_refl) as Ha.
      cbn [snd] in Ha. subst a.
      unfold put_answer. cbn [fst snd]. rewrite stored_put_in.
      now rewrite !String.eqb_refl.
    + destruct Hin as [[Hin | Hin] | Hst]; [congruence | now left | right].
      unfold put_answer. cbn [fst snd]. destruct a as [r' |]; [| exact Hst].
      rewrite stored_put_in.
      destruct (String.eqb_spec k key); [congruence |].
      now rewrite andb_false_r.
Qed.


(** The same URL twice in the list: the batch is refused as a whole. *)
Example cache_update_duplicate_stores_nothing :
  stored (snd (handleCacheUpdate Samples.online DYNAMIC_CACHE_NAME
                 ["/about"; "/about"] Samples.empty_world))
    DYNAMIC_CACHE_NAME "https://app.example/about" = None.
Proof. reflexivity. Qed.


(** ** Partitions *)


Ltac compare_names :=
  repeat match goal with
    | |- context [String.eqb ?a ?b] =>
        destruct (String.eqb_spec a b); try congruence; cbn [andb]
    end.



(** * Further properties of the worker *)

(** ** What the strategy handlers never do *)

Lemma now_with_now (t : Z) (w : World) : now (with_now t w) = t.
Proof. reflexivity. Qed.

Lemma fetched_with_now (t : Z) (w : World) : fetched (with_now t w) = fetched w.
Proof. reflexivity. Qed.

Lemma detached_with_now (t : Z) (w : World) : detached (with_now t w) = detached w.
Proof. reflexivity. Qed.

Ltac reduce_at :=
  repeat progress
    (reduce; rewrite ?now_with_now, ?fetched_with_now, ?detached_with_now in *).

Ltac unfold_handler :=
  first [progress unfold handleAPIRequest | progress unfold handleStaticAsset
        | progress unfold handleImageRequest | progress unfold handleDynamicRequest].

(** With the cache storage in order, no handler rejects: whatever the
    network does, the promise handed to [respondWith] resolves. *)
Theorem handlers_resolve_with_storage
    (c : Class) (env : Env) (request : Request) (w : World) :
  storage_available env = true ->
  exists answer, fst (handler_of c env request w) = Resolved answer.
Proof.
  intros Hs.
  destruct c; cbn [handler_of]; unfold_handler; run; rewrite ?Hs;
    follow; cbn [fst]; eauto.
Qed.

Lemma handlers_resolve_with_storage_witness :
  exists answer,
    fst (handler_of image Samples.offline Samples.logo_request Samples.empty_world)
    = Resolved answer.
Proof.
  apply (handlers_resolve_with_storage image Samples.offline Samples.logo_request
           Samples.empty_world).
  reflexivity.
Defined.

(** A handler never evicts: a key that had an entry in some cache still
    has one after the request, whatever the class and the platform. *)
Theorem handlers_never_evict
    (c : Class) (env : Env) (request : Request) (w : World)
    (n k : string) (r : Response) :
  stored w n k = Some r ->
  exists r', stored (snd (handler_of c env request w)) n k = Some r'.
Proof.
  intros Hst.
  destruct c; cbn [handler_of]; unfold_handler;
    follow; cbn [snd]; reduce;
    repeat match goal with
      | |- context [if ?b then _ else _] => destruct b
      end;
    eauto.
Qed.

Lemma handlers_never_evict_witness :
  exists r',
    stored (snd (handler_of api Samples.online Samples.price_request
                   Samples.stale_api_world))
      API_CACHE_NAME (href Samples.price_url) = Some r'.
Proof.
  apply (handlers_never_evict api Samples.online Samples.price_request
           Samples.stale_api_world API_CACHE_NAME (href Samples.price_url)
           Samples.old_entry).
  reflexivity.
Defined.

(** A handler awaits at most one exchange with the network, and only for
    the URL of the request. *)
Theorem handlers_one_exchange
    (c : Class) (env : Env) (request : Request) (w : World) :
  let w' := snd (handler_of c env request w) in
  fetched w' = fetched w \/ fetched w' = fetched w ++ [request_url request].
Proof.
  cbn zeta.
  destruct c; cbn [handler_of]; unfold_handler;
    follow; cbn [snd]; reduce; auto.
Qed.

(** A partial content (status 206) is an ok answer that the cache refuses:
    the dynamic handler returns it and stores nothing, and an installation
    answered that way does not reach [skipWaiting]. *)
Example partial_content_is_not_stored :
  let out := handleDynamicRequest Samples2.partial_server Samples.about_request
               Samples.empty_world in
  ok Samples2.partial_response = true
  /\ fst out = Resolved (Some Samples2.partial_response)
  /\ stored (snd out) DYNAMIC_CACHE_NAME (request_url Samples.about_request) = None
  /\ fst (install Samples2.partial_server Samples.empty_world) = Resolved false.
Proof. vm_compute. repeat split. Qed.

(** ** The api cache over time *)




(** The background update never rejects and asks the network once; an ok
    answer that the cache accepts replaces the entry of the request by a
    copy stamped with the time of arrival and touches nothing else; any
    other outcome leaves the caches as they were. *)
Theorem background_update_paths
    (env : Env) (request : Request) (cache : string) (w : World) :
  let u := request_url request in
  let out := updateAPICache env request cache w in
  fst out = Resolved tt
  /\ fetched (snd out) = fetched w ++ [u]
  /\ match network env (now w) u with
     | Fetched r =>
         if ok r && storable r
         then stored (snd out) cache u
              = Some (stamped (now w + latency env (now w) u) r)
              /\ forall n k, n <> cache \/ k <> u ->
                             stored (snd out) n k = stored w n k
         else same_entries w (snd out)
     | NetworkError => same_entries w (snd out)
     end.
Proof.
  cbn zeta. unfold updateAPICache. run.
  destruct (network env (now w) (request_url request)) as [r |];
    [destruct (ok r); [destruct (storable r) eqn:Hacc |] |];
    cbn [andb]; reduce; cbn [fst snd]; reduce;
    rewrite ?storable_stamped, ?Hacc; cbn [andb];
    repeat split; auto with entries.
  - now rewrite !String.eqb_refl.
  - intros n k Hnk. reduce. rewrite storable_stamped, Hacc. cbn [andb].
    compare_names; try reflexivity.
    destruct Hnk; congruence.
  - intros n k. reduce. rewrite storable_stamped, Hacc. reflexivity.
Qed.

Lemma background_update_paths_witness :
  stored (snd (updateAPICache Samples.online Samples.price_request API_CACHE_NAME
                 Samples.stale_api_world))
    DYNAMIC_CACHE_NAME (href Samples.price_url)
  = stored Samples.stale_api_world DYNAMIC_CACHE_NAME (href Samples.price_url).
Proof.
  pose proof (background_update_paths Samples.online Samples.price_request
                API_CACHE_NAME Samples.stale_api_world) as H.
  cbn zeta in H. destruct H as (_ & _ & H).
  change (network Samples.online (now Samples.stale_api_world)
            (request_url Samples.price_request))
    with (Fetched Samples.response_200) in H.
  change (ok Samples.response_200 && storable Samples.response_200)
    with true in H.
  cbv iota in H.
  destruct H as (_ & H). apply H. left. discriminate.
Defined.

(** A hit on a fresh api entry renews it: once the detached update has
    run against a network that answers ok, with a response that the cache
    accepts, the entry carries the time of that answer. *)
Theorem api_hit_renews_entry
    (env : Env) (request : Request) (w : World) (cached r : Response) :
  storage_available env = true ->
  stored w API_CACHE_NAME (request_url request) = Some cached ->
  isCacheExpired (now w) cached CACHE_DURATIONS.api = false ->
  detached w = [] ->
  network env (now w) (request_url request) = Fetched r ->
  ok r = true ->
  storable r = true ->
  let u := request_url request in
  let w1 := snd (handleAPIRequest env request w) in
  let w2 := snd (run_detached env w1) in
  fst (handleAPIRequest env request w) = Resolved (Some cached)
  /\ stored w2 API_CACHE_NAME u = Some (stamped (now w + latency env (now w) u) r)
  /\ detached w2 = [].
Proof.
  intros Hs Hst Hexp Hdet Hnet Hok Hacc u w1 w2. subst w2 w1 u.
  unfold handleAPIRequest. run. rewrite Hs. reduce.
  rewrite Hst. cbn [fresh]. rewrite Hexp. cbn [negb]. reduce. cbn [fst snd].
  split; [reflexivity |].
  unfold run_detached. cbn [snd]. reduce. rewrite Hdet.
  cbn [app List.fold_left run_task]. unfold updateAPICache. run.
  cbn [now]. reduce. rewrite Hnet. reduce. rewrite Hok. reduce. cbn [snd].
  reduce. rewrite storable_stamped, Hacc.
  split.
  - rewrite !String.eqb_refl. reflexivity.
  - reflexivity.
Qed.

Lemma api_hit_renews_entry_witness :
  let w1 := snd (handleAPIRequest Samples.online Samples.price_request
                   Samples2.fresh_api_world) in
  stored (snd (run_detached Samples.online w1)) API_CACHE_NAME
    (href Samples.price_url)
  = Some (stamped (Samples.T0 + 60 * 1000 + 40) Samples.response_200).
Proof.
  pose proof (api_hit_renews_entry Samples.online Samples.price_request
                Samples2.fresh_api_world Samples.old_entry Samples.response_200
                eq_refl eq_refl eq_refl eq_refl eq_refl eq_refl eq_refl) as H.
  cbn zeta in H. destruct H as (_ & H & _). exact H.
Defined.

(** ** The other strategy handlers, path by path *)



(** The image handler: a stamped entry no older than seven days is served
    without the network. *)
Theorem image_entry_served_for_a_week
    (env : Env) (request : Request) (w : World) (cached : Response) (t0 : Z) :
  storage_available env = true ->
  stored w DYNAMIC_CACHE_NAME (request_url request) = Some cached ->
  0 <= t0 ->
  HeadersOps.get (headers cached) MARKER = Some (JSNumber.toString t0) ->
  now w - t0 <= CACHE_DURATIONS.images ->
  let out := handleImageRequest env request w in
  fst out = Resolved (Some cached)
  /\ fetched (snd out) = fetched w
  /\ same_entries w (snd out).
Proof.
  intros Hs Hst Ht0 Hm Hage. cbn zeta.
  unfold handleImageRequest. run. rewrite Hs. reduce. rewrite Hst.
  cbn [fresh]. rewrite (isCacheExpired_marker t0 _ _ _ Ht0 Hm).
  replace (now w - t0 >? CACHE_DURATIONS.images) with false
    by (symmetry; rewrite Z.gtb_ltb; apply Z.ltb_ge; exact Hage).
  cbn [negb]. reduce. cbn [fst snd]. auto with entries.
Qed.

Lemma image_entry_served_for_a_week_witness :
  fst (handleImageRequest Samples.offline Samples.logo_request
         Samples.ten_minute_image_world)
  = Resolved (Some Samples.old_entry).
Proof.
  refine (proj1 (image_entry_served_for_a_week Samples.offline Samples.logo_request
                   Samples.ten_minute_image_world Samples.old_entry Samples.T0
                   eq_refl eq_refl _ eq_refl _)).
  - vm_compute. discriminate.
  - vm_compute. discriminate.
Defined.

(** The image handler without network: the entry when there is one, stale
    or not, otherwise an empty response of status 404. *)
Theorem image_offline_answer (env : Env) (request : Request) (w : World) :
  storage_available env = true ->
  network env (now w) (request_url request) = NetworkError ->
  let out := handleImageRequest env request w in
  fst out =
    Resolved (Some (match stored w DYNAMIC_CACHE_NAME (request_url request) with
                    | Some cached => cached
                    | None => new_Response_text "" 404 []
                    end))
  /\ same_entries w (snd out).
Proof.
  intros Hs Hnet. cbn zeta.
  unfold handleImageRequest. run. rewrite Hs. reduce.
  destruct (stored w DYNAMIC_CACHE_NAME (request_url request)) as [cached |];
    cbn [fresh]; [destruct (isCacheExpired _ _ _); cbn [negb] |];
    reduce; rewrite ?Hnet; reduce; cbn [fst snd]; auto with entries.
Qed.

Lemma image_offline_answer_witness :
  fst (handleImageRequest Samples.offline Samples.logo_request Samples.empty_world)
  = Resolved (Some (new_Response_text "" 404 [])).
Proof.
  exact (proj1 (image_offline_answer Samples.offline Samples.logo_request
                  Samples.empty_world eq_refl eq_refl)).
Defined.



(** ** Expiry *)

(** Expiry is monotone: an entry expired at some time under some maximum
    age is expired at every later time and under every smaller maximum. *)
Theorem isCacheExpired_monotone (t t' : Z) (r : Response) (maxAge maxAge' : Z) :
  t <= t' ->
  maxAge' <= maxAge ->
  isCacheExpired t r maxAge = true ->
  isCacheExpired t' r maxAge' = true.
Proof.
  intros Ht Hm. unfold isCacheExpired.
  destruct (HeadersOps.get (headers r) MARKER) as [m |]; [| reflexivity].
  destruct (String.eqb m ""); [reflexivity |].
  destruct (JSNumber.parseInt m) as [t0 |]; [| discriminate].
  rewrite !Z.gtb_ltb, !Z.ltb_lt. lia.
Qed.

Lemma isCacheExpired_monotone_witness :
  isCacheExpired (Samples.T0 + 3600000) Samples.old_entry CACHE_DURATIONS.api = true.
Proof.
  apply (isCacheExpired_monotone (Samples.T0 + 360000) (Samples.T0 + 3600000)
           Samples.old_entry CACHE_DURATIONS.api CACHE_DURATIONS.api).
  - unfold Samples.T0. lia.
  - lia.
  - reflexivity.
Defined.

(** An entry whose marker is present and not a number never expires: its
    age is [NaN], and [NaN > maxAge] is false. The sweep keeps it at every
    run and the api handler serves it at every time without awaiting the
    network. *)
Theorem unparsable_marker_never_expires
    (env : Env) (request : Request) (w : World) (cached : Response) (m : string) :
  storage_available env = true ->
  stored w API_CACHE_NAME (request_url request) = Some cached ->
  HeadersOps.get (headers cached) MARKER = Some m ->
  m <> "" ->
  JSNumber.parseInt m = None ->
  (forall t maxAge, isCacheExpired t cached maxAge = false)
  /\ (forall t, stored (snd (periodic_cleanup env (with_now t w)))
                  API_CACHE_NAME (request_url request) = Some cached)
  /\ (forall t,
        let out := handleAPIRequest env request (with_now t w) in
        fst out = Resolved (Some cached) /\ fetched (snd out) = fetched w).
Proof.
  intros Hs Hst Hm Hne Hnan.
  assert (Hexp : forall t maxAge, isCacheExpired t cached maxAge = false).
  { intros t maxAge. unfold isCacheExpired. rewrite Hm, Hnan.
    destruct (String.eqb_spec m ""); [contradiction | reflexivity]. }
  split; [exact Hexp |]. split.
  - intros t. rewrite (periodic_cleanup_stored env _ Hs), stored_with_now, Hst, Hexp.
    now rewrite andb_false_r.
  - intros t. cbn zeta.
    unfold handleAPIRequest. run. rewrite Hs. reduce_at. rewrite Hst.
    cbn [fresh]. rewrite Hexp. cbn [negb]. reduce_at. cbn [fst snd]. reduce_at.
    auto.
Qed.

Lemma unparsable_marker_never_expires_witness :
  isCacheExpired (now Samples2.odd_api_world) Samples2.odd_entry 0 = false
  /\ stored (snd (periodic_cleanup Samples.online
                    (with_now (Samples.T0 + 1000000000) Samples2.odd_api_world)))
       API_CACHE_NAME (request_url Samples.price_request)
     = Some Samples2.odd_entry.
Proof.
  destruct (unparsable_marker_never_expires Samples.online Samples.price_request
              Samples2.odd_api_world Samples2.odd_entry "yesterday"
              eq_refl eq_refl eq_refl ltac:(discriminate) eq_refl)
    as (Hexp & Hkeep & _).
  split; [apply Hexp | apply Hkeep].
Defined.

(** ** The sweep as a whole *)

Lemma cleanup_requests_fetched (cache : string) (requests : list string) (w : World) :
  fetched (snd (cleanup_requests cache requests w)) = fetched w.
Proof.
  revert w. induction requests as [| q rest IH]; intros w; cbn [cleanup_requests].
  - reflexivity.
  - run.
    destruct (stored w cache q) as [rq |];
      [destruct (isCacheExpired (now w) rq CACHE_DURATIONS.api) |];
      cbv beta iota; rewrite IH; reflexivity.
Qed.

(** The sweep never rejects and never asks the network; it only removes
    entries, leaves the static cache alone, and does nothing at all when
    the cache storage does not open. *)
Theorem cleanup_only_removes (env : Env) (w : World) :
  let w' := snd (periodic_cleanup env w) in
  fst (periodic_cleanup env w) = Resolved tt
  /\ now w' = now w
  /\ fetched w' = fetched w
  /\ (forall n k r, stored w' n k = Some r -> stored w n k = Some r)
  /\ (forall k, stored w' STATIC_CACHE_NAME k = stored w STATIC_CACHE_NAME k)
  /\ (storage_available env = false -> w' = w).
Proof.
  cbn zeta. destruct (storage_available env) eqn:Hs.
  - pose proof (periodic_cleanup_stored env w Hs) as Hst.
    assert (Hrun : fst (periodic_cleanup env w) = Resolved tt
                   /\ now (snd (periodic_cleanup env w)) = now w
                   /\ fetched (snd (periodic_cleanup env w)) = fetched w).
    { unfold periodic_cleanup. cbn [cleanup_caches]. run. rewrite Hs.
      destruct (cleanup_requests_spec API_CACHE_NAME
                  (CacheOps.keys (entries (opened API_CACHE_NAME w) API_CACHE_NAME))
                  (opened API_CACHE_NAME w)) as (Hr1 & Hn1 & _).
      pose proof (cleanup_requests_fetched API_CACHE_NAME
                    (CacheOps.keys (entries (opened API_CACHE_NAME w) API_CACHE_NAME))
                    (opened API_CACHE_NAME w)) as Hf1.
      cbn zeta in Hn1.
      destruct (cleanup_requests API_CACHE_NAME _ (opened API_CACHE_NAME w))
        as [o1 w1].
      cbn [fst snd] in *. subst o1.
      destruct (cleanup_requests_spec DYNAMIC_CACHE_NAME
                  (CacheOps.keys (entries (opened DYNAMIC_CACHE_NAME w1)
                                    DYNAMIC_CACHE_NAME))
                  (opened DYNAMIC_CACHE_NAME w1)) as (Hr2 & Hn2 & _).
      pose proof (cleanup_requests_fetched DYNAMIC_CACHE_NAME
                    (CacheOps.keys (entries (opened DYNAMIC_CACHE_NAME w1)
                                      DYNAMIC_CACHE_NAME))
                    (opened DYNAMIC_CACHE_NAME w1)) as Hf2.
      cbn zeta in Hn2.
      destruct (cleanup_requests DYNAMIC_CACHE_NAME _ (opened DYNAMIC_CACHE_NAME w1))
        as [o2 w2].
      cbn [fst snd] in *. subst o2. cbn [fst snd].
      rewrite Hn2, Hf2. cbn [now fetched opened with_caches] in *.
      rewrite Hn1, Hf1. auto. }
    destruct Hrun as (Hres & Hnow & Hfet).
    split; [exact Hres |]. split; [exact Hnow |]. split; [exact Hfet |].
    split; [| split; [| discriminate]].
    + intros n k r. rewrite Hst.
      destruct (stored w n k) as [r0 |]; [| discriminate].
      destruct (_ && _); [discriminate | auto].
    + intros k. rewrite Hst.
      destruct (stored w STATIC_CACHE_NAME k); reflexivity.
  - unfold periodic_cleanup. cbn [cleanup_caches]. run. rewrite Hs. cbn [fst snd].
    repeat split; auto.
Qed.

Lemma cleanup_only_removes_witness :
  snd (periodic_cleanup Samples.no_storage Samples.stale_api_world)
  = Samples.stale_api_world
  /\ stored Samples.stale_api_world API_CACHE_NAME (href Samples.price_url)
     = Some Samples.old_entry.
Proof.
  destruct (cleanup_only_removes Samples.no_storage Samples.stale_api_world)
    as (_ & _ & _ & _ & _ & H).
  split; [exact (H eq_refl) | reflexivity].
Defined.

(** Sweeping twice in a row removes nothing that the first sweep kept. *)
Theorem cleanup_idempotent (env : Env) (w : World) (n k : string) :
  let w1 := snd (periodic_cleanup env w) in
  stored (snd (periodic_cleanup env w1)) n k = stored w1 n k.
Proof.
  cbn zeta. destruct (cleanup_only_removes env w) as (_ & Hnow & _ & _ & _ & Hoff).
  cbn zeta in Hnow, Hoff.
  destruct (storage_available env) eqn:Hs.
  - rewrite (periodic_cleanup_stored env _ Hs), Hnow.
    rewrite (periodic_cleanup_stored env w Hs).
    destruct (stored w n k) as [r |]; [| reflexivity].
    destruct ((String.eqb API_CACHE_NAME n || String.eqb DYNAMIC_CACHE_NAME n)
              && isCacheExpired (now w) r CACHE_DURATIONS.api) eqn:E;
      [reflexivity | now rewrite E].
  - rewrite (Hoff eq_refl), (Hoff eq_refl). reflexivity.
Qed.

(** ** Prefetch *)

Lemma prefetch_each_run (env : Env) (cache : string) (urls : list string) :
  forall w w0,
    only_ok_added w0 w ->
    let out := prefetch_each env cache urls w in
    fst out = Resolved tt
    /\ fetched (snd out) = fetched w ++ List.map (resolve env) urls
    /\ only_ok_added w0 (snd out).
Proof.
  induction urls as [| u rest IH]; intros w w0 H0; cbn [prefetch_each List.map].
  - cbn. rewrite List.app_nil_r. auto.
  - run.
    destruct (network env (now w) (resolve env u)) as [r |];
      [destruct (ok r) eqn:Eok |]; cbv beta iota;
      match goal with
      | |- context [prefetch_each env cache rest ?w1] =>
          destruct (IH w1 w0) as (Hres & Hfet & Hadd);
          [auto with entries |]
      end;
      cbn zeta in *; reduce; rewrite Hfet; reduce;
      rewrite <- List.app_assoc; auto.
Qed.

(** Prefetch never rejects, stores only ok answers and goes through the
    whole list: with the cache storage in order every URL is asked once,
    in order, whatever the earlier ones gave; without it none is asked. *)
Theorem prefetch_asks_every_url (env : Env) (urls : list string) (w : World) :
  let out := handlePrefetchUrls env urls w in
  fst out = Resolved tt
  /\ fetched (snd out)
     = fetched w ++ (if storage_available env then List.map (resolve env) urls
                     else [])
  /\ only_ok_added w (snd out).
Proof.
  cbn zeta. unfold handlePrefetchUrls. run.
  destruct (storage_available env).
  - destruct (prefetch_each_run env DYNAMIC_CACHE_NAME urls
                (opened DYNAMIC_CACHE_NAME w) w) as (Hres & Hfet & Hadd);
      [auto with entries |].
    cbn zeta in *.
    destruct (prefetch_each env DYNAMIC_CACHE_NAME urls
                (opened DYNAMIC_CACHE_NAME w)) as [o w1].
    cbn [fst snd] in *. subst o. cbn [fst snd]. auto.
  - cbn [fst snd]. rewrite List.app_nil_r. auto with entries.
Qed.

(** ** Activation *)

Ltac run_registry := run; unfold caches_keys, caches_delete in *.

Lemma delete_old_caches_spec (env : Env) (cacheNames : list string) :
  storage_available env = true ->
  forall w,
    let out := delete_old_caches env cacheNames w in
    fst out = Resolved tt
    /\ now (snd out) = now w
    /\ fetched (snd out) = fetched w
    /\ forall n,
         caches (snd out) !! n =
         if bool_decide (n ∈ cacheNames) && negb (current_name n)
         then None else caches w !! n.
Proof.
  intros Hs.
  induction cacheNames as [| a rest IH]; intros w; cbn [delete_old_caches].
  - cbn. repeat split.
  - unfold delete_if_old. run_registry. rewrite Hs.
    destruct (negb (String.eqb a STATIC_CACHE_NAME)
              && negb (String.eqb a DYNAMIC_CACHE_NAME)
              && negb (String.eqb a API_CACHE_NAME)) eqn:Eold; cbv beta iota;
      match goal with
      | |- context [delete_old_caches env rest ?w1] =>
          destruct (IH w1) as (Hres & Hnow & Hfet & Hst)
      end;
      cbn zeta in *;
      (split; [exact Hres |]); (split; [exact Hnow |]); (split; [exact Hfet |]);
      intros n; rewrite Hst; clear Hst;
      assert (Hcur : negb (current_name a) = (negb (String.eqb a STATIC_CACHE_NAME)
              && negb (String.eqb a DYNAMIC_CACHE_NAME)
              && negb (String.eqb a API_CACHE_NAME)))
        by (unfold current_name; now rewrite !negb_orb);
      rewrite Eold in Hcur;
      destruct (decide (n = a)) as [-> | Hna].
    + rewrite (bool_decide_eq_true_2 (a ∈ a :: rest)) by (left).
      rewrite Hcur. cbn [andb].
      unfold removed, with_caches. cbn [caches]. rewrite lookup_delete_eq.
      destruct (bool_decide (a ∈ rest)); reflexivity.
    + unfold removed, with_caches. cbn [caches].
      rewrite lookup_delete_ne by congruence.
      rewrite (bool_decide_ext (n ∈ a :: rest) (n ∈ rest)); [reflexivity |].
      rewrite elem_of_cons. tauto.
    + rewrite Hcur, !andb_false_r. reflexivity.
    + rewrite (bool_decide_ext (n ∈ a :: rest) (n ∈ rest)); [reflexivity |].
      rewrite elem_of_cons. tauto.
Qed.

Lemma activate_registry (env : Env) (w : World) :
  storage_available env = true ->
  let out := activate env w in
  fst out = Resolved tt
  /\ fetched (snd out) = fetched w
  /\ forall n, caches (snd out) !! n = if current_name n then caches w !! n else None.
Proof.
  intros Hs. cbn zeta. unfold activate. run_registry. rewrite Hs.
  destruct (delete_old_caches_spec env (cache_names w) Hs w)
    as (Hres & _ & Hfet & Hst).
  cbn zeta in *. split; [exact Hres |]. split; [exact Hfet |].
  intros n. rewrite Hst.
  destruct (current_name n); cbn [negb]; [now rewrite andb_false_r |].
  rewrite andb_true_r.
  destruct (bool_decide (n ∈ cache_names w)) eqn:E; [reflexivity |].
  apply bool_decide_eq_false in E. unfold cache_names in E.
  rewrite elem_of_elements, elem_of_dom in E.
  destruct (caches w !! n); [exfalso; apply E; eauto | reflexivity].
Qed.

(** Activation keeps the caches with the three current names, with what
    they hold, and deletes every other cache, so that no entry is left
    under any other name; it asks nothing of the network. *)
Theorem activate_keeps_current_caches (env : Env) (w : World) :
  storage_available env = true ->
  let out := activate env w in
  fst out = Resolved tt
  /\ fetched (snd out) = fetched w
  /\ (forall n, caches (snd out) !! n = if current_name n then caches w !! n else None)
  /\ (forall n k, stored (snd out) n k = if current_name n then stored w n k else None).
Proof.
  intros Hs. cbn zeta.
  destruct (activate_registry env w Hs) as (Hres & Hfet & Hst). cbn zeta in *.
  split; [exact Hres |]. split; [exact Hfet |]. split; [exact Hst |].
  intros n k. unfold stored, entries. rewrite Hst.
  destruct (current_name n); reflexivity.
Qed.

Lemma activate_keeps_current_caches_witness :
  let w' := snd (activate Samples.online Samples2.upgraded_world) in
  caches w' !! "crypto-monitor-static-v1.0.0" = None
  /\ caches w' !! API_CACHE_NAME = caches Samples2.upgraded_world !! API_CACHE_NAME.
Proof.
  destruct (activate_keeps_current_caches Samples.online Samples2.upgraded_world
              eq_refl) as (_ & _ & H & _).
  split; [apply (H "crypto-monitor-static-v1.0.0") | apply (H API_CACHE_NAME)].
Defined.

(** Activating twice in a row leaves the registry as the first activation
    left it. *)
Theorem activate_idempotent (env : Env) (w : World) :
  storage_available env = true ->
  caches (snd (activate env (snd (activate env w))))
  = caches (snd (activate env w)).
Proof.
  intros Hs. apply map_eq. intros n.
  destruct (activate_registry env (snd (activate env w)) Hs) as (_ & _ & H2).
  destruct (activate_registry env w Hs) as (_ & _ & H1).
  cbn zeta in *. rewrite H2, H1.
  destruct (current_name n); reflexivity.
Qed.

Lemma activate_idempotent_witness :
  caches (snd (activate Samples.online
                 (snd (activate Samples.online Samples2.upgraded_world))))
  = caches (snd (activate Samples.online Samples2.upgraded_world)).
Proof.
  apply (activate_idempotent Samples.online Samples2.upgraded_world).
  reflexivity.
Defined.

(** ** Installation *)

Lemma put_answers_keep (cache : string) (answers : list (string * FetchResult))
    (n : string) :
  forall w,
    is_Some (caches w !! n) ->
    is_Some (caches (List.fold_left (put_answer cache) answers w) !! n).
Proof.
  induction answers as [| [k a] rest IH]; intros w H; cbn [List.fold_left].
  - exact H.
  - apply IH. unfold put_answer. cbn [fst snd].
    destruct a as [r |]; [| exact H].
    unfold put_in, with_caches. cbn [caches].
    destruct (decide (cache = n)) as [-> | Hne].
    + rewrite lookup_insert_eq. eauto.
    + rewrite lookup_insert_ne by exact Hne. exact H.
Qed.

Lemma opened_exists (name : string) (w : World) :
  is_Some (caches (opened name w) !! name).
Proof.
  unfold opened, with_caches. cbn [caches].
  destruct (caches w !! name) eqn:E; [rewrite E; eauto |].
  rewrite lookup_insert_eq. eauto.
Qed.

Lemma opened_keeps (name n : string) (w : World) :
  is_Some (caches w !! n) -> is_Some (caches (opened name w) !! n).
Proof.
  intros H. unfold opened, with_caches. cbn [caches].
  destruct (caches w !! name) eqn:E; [exact H |].
  destruct (decide (name = n)) as [-> | Hne].
  - rewrite lookup_insert_eq. eauto.
  - rewrite lookup_insert_ne by exact Hne. exact H.
Qed.

(** What the install chain leaves, by the answers of the network to the
    manifest. *)
Lemma install_run (env : Env) (w : World) :
  storage_available env = true ->
  let w3 := opened API_CACHE_NAME
              (opened DYNAMIC_CACHE_NAME (opened STATIC_CACHE_NAME w)) in
  install env w =
  if batch_accepted env w STATIC_ASSETS
  then (Resolved true,
        List.fold_left (put_answer STATIC_CACHE_NAME)
          (batch_answers env w STATIC_ASSETS) (batch_asked env STATIC_ASSETS w3))
  else (Resolved false, batch_asked env STATIC_ASSETS w3).
Proof.
  intros Hs. cbn zeta. unfold install, cache_addAll. run. rewrite Hs.
  cbv beta iota.
  change (batch_accepted env
            (opened API_CACHE_NAME
               (opened DYNAMIC_CACHE_NAME (opened STATIC_CACHE_NAME w)))
            STATIC_ASSETS)
    with (batch_accepted env w STATIC_ASSETS).
  destruct (batch_accepted env w STATIC_ASSETS);
    reflexivity.
Qed.

(** Installation never rejects and is all-or-nothing: it reaches
    [skipWaiting] exactly when the cache storage opens and [addAll] goes
    through (every asset of the manifest is answered with an ok response
    that the cache accepts, and no two assets have the same URL), and then
    every asset is in the static cache; otherwise no entry is added
    anywhere. In both cases the three caches exist once the storage has
    opened. *)
Theorem install_all_or_nothing (env : Env) (w : World) :
  let out := install env w in
  let complete := storage_available env && batch_accepted env w STATIC_ASSETS in
  fst out = Resolved complete
  /\ (complete = true ->
      forall asset r,
        List.In asset STATIC_ASSETS ->
        network env (now w) (resolve env asset) = Fetched r ->
        stored (snd out) STATIC_CACHE_NAME (resolve env asset) = Some r)
  /\ (complete = false -> same_entries w (snd out))
  /\ (storage_available env = true ->
      is_Some (caches (snd out) !! STATIC_CACHE_NAME)
      /\ is_Some (caches (snd out) !! DYNAMIC_CACHE_NAME)
      /\ is_Some (caches (snd out) !! API_CACHE_NAME)).
Proof.
  cbn zeta. destruct (storage_available env) eqn:Hs; cbn [andb].
  - rewrite (install_run env w Hs).
    destruct (batch_accepted env w STATIC_ASSETS) eqn:Hall;
      cbn [fst snd].
    + split; [reflexivity |]. split; [| split; [discriminate |]].
      * intros _ asset r Hin Hnet. apply put_answers_stored.
        -- intros [k a] Ha Hk. cbn [fst snd] in *. subst k.
           unfold batch_answers in Ha. apply List.in_map_iff in Ha.
           destruct Ha as (u & [= Hu <-] & _). rewrite Hu. exact Hnet.
        -- left. unfold batch_answers. apply List.in_map_iff.
           exists asset. split; [now rewrite Hnet | exact Hin].
      * intros _. repeat split; apply put_answers_keep;
          unfold batch_asked; cbn [caches].
        -- apply opened_keeps, opened_keeps, opened_exists.
        -- apply opened_keeps, opened_exists.
        -- apply opened_exists.
    + split; [reflexivity |]. split; [discriminate |]. split.
      * intros _ n k. unfold batch_asked, stored, entries. cbn [caches].
        change (stored (opened API_CACHE_NAME
                          (opened DYNAMIC_CACHE_NAME
                             (opened STATIC_CACHE_NAME w))) n k = stored w n k).
        now rewrite !stored_opened.
      * intros _. unfold batch_asked. cbn [caches]. repeat split.
        -- apply opened_keeps, opened_keeps, opened_exists.
        -- apply opened_keeps, opened_exists.
        -- apply opened_exists.
  - unfold install. run. rewrite Hs. cbn [fst snd].
    split; [reflexivity |]. split; [discriminate |].
    split; [intros _; apply same_entries_refl | discriminate].
Qed.

Lemma install_all_or_nothing_witness :
  stored (snd (install Samples.online Samples.empty_world)) STATIC_CACHE_NAME
    "https://app.example/index.html" = Some Samples.response_200
  /\ same_entries Samples.empty_world (snd (install Samples.offline
                                              Samples.empty_world))
  /\ is_Some (caches (snd (install Samples.offline Samples.empty_world))
                !! API_CACHE_NAME).
Proof.
  destruct (install_all_or_nothing Samples.online Samples.empty_world)
    as (_ & Hall & _ & _).
  destruct (install_all_or_nothing Samples.offline Samples.empty_world)
    as (_ & _ & Hnone & Hthree).
  split; [| split].
  - apply (Hall eq_refl "/index.html" Samples.response_200).
    + right. left. reflexivity.
    + reflexivity.
  - apply Hnone. reflexivity.
  - apply (Hthree eq_refl).
Defined.

(** After a complete installation (every asset answered with an ok
    response that the cache accepts) the worker answers without network: a
    request for an asset of the manifest, under the URL the asset
    serialises to, is served from the static cache, and a navigation that
    nothing else can answer gets the page stored under [/index.html], not
    [undefined]. *)
Theorem install_enables_offline
    (env env' : Env) (w : World) (request : Request) (t : Z) (r : Response) :
  storage_available env = true ->
  batch_accepted env w STATIC_ASSETS = true ->
  storage_available env' = true ->
  origin env' = origin env ->
  network env' t (request_url request) = NetworkError ->
  let w1 := with_now t (snd (install env w)) in
  (forall asset,
     List.In asset STATIC_ASSETS ->
     request_url request = resolve env asset ->
     network env (now w) (resolve env asset) = Fetched r ->
     fst (handleStaticAsset env' request w1) = Resolved (Some r)
     /\ fetched (snd (handleStaticAsset env' request w1)) = fetched w1)
  /\ (network env (now w) (resolve env "/index.html") = Fetched r ->
      destination request = "document" ->
      stored w1 DYNAMIC_CACHE_NAME (request_url request) = None ->
      fst (handleDynamicRequest env' request w1) = Resolved (Some r)).
Proof.
  intros Hs Hall Hs' Horigin Hnet w1.
  assert (Hstored : forall asset,
            List.In asset STATIC_ASSETS ->
            network env (now w) (resolve env asset) = Fetched r ->
            stored w1 STATIC_CACHE_NAME (resolve env asset) = Some r).
  { intros asset Hin Hfetch. subst w1. rewrite stored_with_now.
    rewrite (install_run env w Hs), Hall. cbn [snd].
    apply put_answers_stored.
    - intros [k a] Ha Hk. cbn [fst snd] in *. subst k.
      unfold batch_answers in Ha. apply List.in_map_iff in Ha.
      destruct Ha as (u & [= Hu <-] & _). rewrite Hu. exact Hfetch.
    - left. unfold batch_answers. apply List.in_map_iff.
      exists asset. split; [now rewrite Hfetch | exact Hin]. }
  assert (Hnow : now w1 = t) by reflexivity.
  clearbody w1. split.
  - intros asset Hin Hurl Hfetch.
    specialize (Hstored asset Hin Hfetch). rewrite <- Hurl in Hstored.
    unfold handleStaticAsset. run. rewrite Hs'. reduce. rewrite Hstored.
    reduce. cbn [fst snd]. reduce. auto.
  - intros Hfetch Hdoc Hmiss.
    assert (Hidx : stored w1 STATIC_CACHE_NAME (resolve env' "/index.html") = Some r).
    { unfold resolve in *. rewrite Horigin.
      apply (Hstored "/index.html"); [right; left; reflexivity | exact Hfetch]. }
    unfold handleDynamicRequest. run. rewrite Hs', Hnow, Hnet. reduce.
    rewrite Hmiss. reduce. rewrite Hdoc, String.eqb_refl. reduce. cbn [fst].
    now rewrite Hidx.
Qed.

Lemma install_enables_offline_witness :
  fst (handleDynamicRequest Samples.offline Samples.about_request
         (with_now (Samples.T0 + 1000)
            (snd (install Samples.online Samples.empty_world))))
  = Resolved (Some Samples.response_200).
Proof.
  destruct (install_enables_offline Samples.online Samples.offline
              Samples.empty_world Samples.about_request (Samples.T0 + 1000)
              Samples.response_200 eq_refl eq_refl eq_refl eq_refl eq_refl)
    as (_ & H).
  apply H.
  - reflexivity.
  - reflexivity.
  - vm_compute. reflexivity.
Defined.

(** The asset written [https://cdn.tailwindcss.com] in the manifest is
    stored, and served offline, under the URL with its path. *)
Example installed_cdn_asset_served_offline :
  resolve Samples.online "https://cdn.tailwindcss.com" = "https://cdn.tailwindcss.com/"
  /\ fst (handleStaticAsset Samples.offline
            (mkRequest (mkURL "https://cdn.tailwindcss.com/" "cdn.tailwindcss.com"
                          "/" []) "script")
            (with_now (Samples.T0 + 1000)
               (snd (install Samples.online Samples.empty_world))))
     = Resolved (Some Samples.response_200).
Proof.
  split; [reflexivity |].
  destruct (install_enables_offline Samples.online Samples.offline
              Samples.empty_world
              (mkRequest (mkURL "https://cdn.tailwindcss.com/" "cdn.tailwindcss.com"
                            "/" []) "script")
              (Samples.T0 + 1000) Samples.response_200
              eq_refl eq_refl eq_refl eq_refl eq_refl) as (H & _).
  apply (H "https://cdn.tailwindcss.com").
  - cbn. do 16 right. left. reflexivity.
  - reflexivity.
  - reflexivity.
Qed.

(** ** The clear-cache command *)

Lemma delete_each_spec (env : Env) (cacheNames : list string) :
  storage_available env = true ->
  forall w,
    let out := delete_each env cacheNames w in
    fst out = Resolved tt
    /\ fetched (snd out) = fetched w
    /\ forall n,
         caches (snd out) !! n =
         if bool_decide (n ∈ cacheNames) then None else caches w !! n.
Proof.
  intros Hs.
  induction cacheNames as [| a rest IH]; intros w; cbn [delete_each].
  - cbn. repeat split.
  - run_registry. rewrite Hs. cbv beta iota.
    destruct (IH (removed a w)) as (Hres & Hfet & Hst). cbn zeta in *.
    split; [exact Hres |]. split; [exact Hfet |].
    intros n. rewrite Hst. unfold removed, with_caches. cbn [caches].
    destruct (decide (n = a)) as [-> | Hna].
    + rewrite (bool_decide_eq_true_2 (a ∈ a :: rest)) by (left).
      rewrite lookup_delete_eq. destruct (bool_decide (a ∈ rest)); reflexivity.
    + rewrite lookup_delete_ne by congruence.
      rewrite (bool_decide_ext (n ∈ a :: rest) (n ∈ rest)); [reflexivity |].
      rewrite elem_of_cons. tauto.
Qed.

(** The clear-cache command never rejects and asks nothing of the network.
    With a name that is not empty it deletes that cache and no other; with
    no name, or the empty name, it deletes every cache; a message without
    payload, or a cache storage that does not open, changes nothing. *)
Theorem clear_cache_paths (env : Env) (payload : option (option string)) (w : World) :
  let out := handleClearCache env payload w in
  fst out = Resolved tt
  /\ fetched (snd out) = fetched w
  /\ match payload with
     | None => snd out = w
     | Some cacheName =>
         if storage_available env then
           match cacheName with
           | Some name =>
               if String.eqb name "" then caches (snd out) = ∅
               else caches (snd out) = base.delete name (caches w)
           | None => caches (snd out) = ∅
           end
         else snd out = w
     end.
Proof.
  cbn zeta. destruct payload as [cacheName |]; [| cbn; auto].
  assert (Hall : storage_available env = true ->
            let out := (cacheNames ← caches_keys env; delete_each env cacheNames) w in
            fst out = Resolved tt /\ fetched (snd out) = fetched w
            /\ caches (snd out) = ∅).
  { intros Hs. cbn zeta. run_registry. rewrite Hs.
    destruct (delete_each_spec env (cache_names w) Hs w) as (Hres & Hfet & Hst).
    cbn zeta in *. split; [exact Hres |]. split; [exact Hfet |].
    apply map_eq. intros n. rewrite Hst, lookup_empty.
    destruct (bool_decide (n ∈ cache_names w)) eqn:E; [reflexivity |].
    apply bool_decide_eq_false in E. unfold cache_names in E.
    rewrite elem_of_elements, elem_of_dom in E.
    destruct (caches w !! n); [exfalso; apply E; eauto | reflexivity]. }
  unfold handleClearCache.
  destruct (storage_available env) eqn:Hs.
  - specialize (Hall eq_refl). cbn zeta in Hall.
    destruct cacheName as [name |];
      [destruct (String.eqb name "") eqn:En |]; cbn [negb default].
    + unfold try_catch.
      destruct ((cacheNames ← caches_keys env; delete_each env cacheNames) w)
        as [[[] | e] w1]; cbn [fst snd] in *;
        destruct Hall as (Hres & Hfet & Hemp); [auto | discriminate].
    + run_registry. rewrite Hs. cbn [fst snd]. auto.
    + unfold try_catch.
      destruct ((cacheNames ← caches_keys env; delete_each env cacheNames) w)
        as [[[] | e] w1]; cbn [fst snd] in *;
        destruct Hall as (Hres & Hfet & Hemp); [auto | discriminate].
  - destruct cacheName as [name |];
      [destruct (String.eqb name "") |]; cbn [negb default];
      run_registry; rewrite Hs; cbn [fst snd]; auto.
Qed.

(** ** The status command *)

Lemma opened_existing (name : string) (w : World) :
  is_Some (caches w !! name) -> opened name w = w.
Proof.
  intros [c Hc]. unfold opened, with_caches. rewrite Hc. now destruct w.
Qed.

Lemma count_entries_run (env : Env) (cacheNames : list string) (w : World) :
  storage_available env = true ->
  (forall n, n ∈ cacheNames -> is_Some (caches w !! n)) ->
  forall status,
    exists status',
      count_entries env cacheNames status w = (Resolved status', w)
      /\ forall n,
           status' !! n =
           if bool_decide (n ∈ cacheNames) then Some (length (entries w n))
           else status !! n.
Proof.
  intros Hs.
  induction cacheNames as [| a rest IH]; intros Hdom status; cbn [count_entries].
  - exists status. split; [reflexivity | intros n; reflexivity].
  - run. rewrite Hs. cbv beta iota.
    rewrite (opened_existing a w) by (apply Hdom; left).
    destruct (IH (fun n Hn => Hdom n (list_elem_of_further _ _ _ Hn))
                (<[a := length (CacheOps.keys (entries w a))]> status))
      as (status' & Hrun & Hst).
    exists status'. split; [exact Hrun |].
    intros n. rewrite Hst.
    destruct (decide (n = a)) as [-> | Hna].
    + rewrite (bool_decide_eq_true_2 (a ∈ a :: rest)) by (left).
      rewrite lookup_insert_eq. unfold CacheOps.keys. rewrite List.length_map.
      destruct (bool_decide (a ∈ rest)); reflexivity.
    + rewrite lookup_insert_ne by congruence.
      rewrite (bool_decide_ext (n ∈ a :: rest) (n ∈ rest)); [reflexivity |].
      rewrite elem_of_cons. tauto.
Qed.

Lemma status_without_port (env : Env) (w : World) :
  handleGetCacheStatus env false w = (Rejected TypeError, w).
Proof.
  unfold handleGetCacheStatus, post_on_port. run_registry.
  destruct (storage_available env) eqn:Hs; [| reflexivity].
  destruct (count_entries_run env (cache_names w) w Hs) with (status := (∅ : gmap string nat))
    as (status' & Hrun & _).
  { intros n Hn. unfold cache_names in Hn.
    now rewrite elem_of_elements, elem_of_dom in Hn. }
  rewrite Hrun. reflexivity.
Qed.

Lemma status_with_port_resolves (env : Env) (w : World) :
  exists reply, fst (handleGetCacheStatus env true w) = Resolved reply.
Proof.
  unfold handleGetCacheStatus, try_catch.
  destruct ((cacheNames ← caches_keys env;
             status ← count_entries env cacheNames ∅;
             post_on_port true (CACHE_STATUS status)) w) as [[a | e] w'];
    cbn; eauto.
Qed.


(** ** The message listener *)

Lemma try_catch_resolves {A} (body : M A) (recover : Error -> A) (w : World) :
  exists a, fst (try_catch body (fun e => mret (recover e)) w) = Resolved a.
Proof.
  unfold try_catch. destruct (body w) as [[a | e] w']; cbn; eauto.
Qed.

(** What makes the listener, or the handler it calls, throw: a message
    without data, and a status request without port; both change nothing.
    Every other message (a command with a payload of the shape its handler
    reads, or a message of another type) resolves whatever the platform
    does; only the status command is replied to; a message of an unknown
    type changes nothing. *)
Theorem message_listener_outcomes (env : Env) (data : option Command) (w : World) :
  (data = None \/ data = Some (GET_CACHE_STATUS false) ->
   message_listener env data w = (Rejected TypeError, w))
  /\ (data <> None -> data <> Some (GET_CACHE_STATUS false) ->
      exists reply, fst (message_listener env data w) = Resolved reply)
  /\ (forall command,
        data = Some command ->
        command <> GET_CACHE_STATUS true -> command <> GET_CACHE_STATUS false ->
        fst (message_listener env data w) = Resolved None)
  /\ (forall type, data = Some (OTHER type) -> snd (message_listener env data w) = w).
Proof.
  assert (Hunit : forall (m : M unit),
            (exists a, fst (m w) = Resolved a) ->
            fst ((m;; mret (@None Reply)) w) = Resolved None).
  { intros m [a Ha]. unfold mbind, M_bind, bind.
    destruct (m w) as [[x | e] w']; cbn in *; [reflexivity | discriminate]. }
  assert (Hcmd : forall command,
            command <> GET_CACHE_STATUS true -> command <> GET_CACHE_STATUS false ->
            fst (message_listener env (Some command) w) = Resolved None).
  { intros command Ht Hf.
    destruct command as [cacheName urls | payload | urls | [|] | type];
      cbn [message_listener]; try contradiction; [| | | reflexivity]; apply Hunit.
    - unfold handleCacheUpdate. apply (try_catch_resolves _ (fun _ => tt)).
    - unfold handleClearCache. destruct payload as [cacheName |];
        [apply (try_catch_resolves _ (fun _ => tt)) | cbn; eauto].
    - unfold handlePrefetchUrls. apply (try_catch_resolves _ (fun _ => tt)). }
  split; [| split; [| split]].
  - intros [-> | ->]; [reflexivity |].
    cbn [message_listener]. unfold mbind, M_bind, bind.
    now rewrite status_without_port.
  - intros Hsome Hport.
    destruct data as [command |]; [| contradiction].
    destruct command as [cacheName urls | payload | urls | [|] | type];
      try (eexists; apply Hcmd; discriminate); [| contradiction].
    cbn [message_listener]. unfold mbind, M_bind, bind.
    destruct (status_with_port_resolves env w) as [reply Hreply].
    destruct (handleGetCacheStatus env true w) as [[x | e] w'];
      cbn in *; [eauto | discriminate].
  - intros command -> Ht Hf. now apply Hcmd.
  - intros type ->. reflexivity.
Qed.

Lemma message_listener_outcomes_witness :
  message_listener Samples.online (Some (GET_CACHE_STATUS false))
    Samples.stale_api_world = (Rejected TypeError, Samples.stale_api_world)
  /\ fst (message_listener Samples.no_storage (Some (CLEAR_CACHE (Some None)))
            Samples.stale_api_world) = Resolved None
  /\ snd (message_listener Samples.offline (Some (OTHER "PING"))
            Samples.stale_api_world) = Samples.stale_api_world.
Proof.
  destruct (message_listener_outcomes Samples.online (Some (GET_CACHE_STATUS false))
              Samples.stale_api_world) as (H1 & _).
  destruct (message_listener_outcomes Samples.no_storage
              (Some (CLEAR_CACHE (Some None))) Samples.stale_api_world)
    as (_ & _ & H2 & _).
  destruct (message_listener_outcomes Samples.offline (Some (OTHER "PING"))
              Samples.stale_api_world) as (_ & _ & _ & H3).
  split; [| split].
  - apply H1. right. reflexivity.
  - apply (H2 (CLEAR_CACHE (Some None))); [reflexivity | discriminate | discriminate].
  - apply (H3 "PING"). reflexivity.
Defined.

(** ** The background price update *)

Lemma headers_get_app (h l : Headers) (name : string) :
  HeadersOps.get (h ++ l) name =
  match HeadersOps.get h name with
  | Some v => Some v
  | None => HeadersOps.get l name
  end.
Proof.
  induction h as [| [n v] h IH]; cbn [app HeadersOps.get]; [reflexivity |].
  destruct (String.eqb n name); [reflexivity | exact IH].
Qed.

Lemma marker_of_text_response (data : string) (st : Z) (h : Headers) (t : Z) :
  HeadersOps.get
    (headers (new_Response_text data st (HeadersOps.set h MARKER (JSNumber.toString t))))
    MARKER = Some (JSNumber.toString t).
Proof.
  unfold new_Response_text. cbn [headers].
  destruct (HeadersOps.get (HeadersOps.set h MARKER (JSNumber.toString t))
              "content-type").
  - apply headers_get_set.
  - rewrite headers_get_app, headers_get_set. reflexivity.
Qed.

Lemma storable_text_response (data : string) (h : Headers) (value : string) :
  storable (new_Response_text data 200 (HeadersOps.set h MARKER value))
  = negb (varies_on_all h).
Proof.
  unfold storable, new_Response_text. cbn [status headers].
  assert (E : (200 =? 206) = false) by reflexivity.
  rewrite E. cbn [negb andb]. f_equal.
  destruct (HeadersOps.get (HeadersOps.set h MARKER value) "content-type").
  - now apply varies_on_all_set.
  - unfold varies_on_all at 1. rewrite List.existsb_app. cbn.
    rewrite orb_false_r. now apply varies_on_all_set.
Qed.

Section PriceUpdate.

Variable reserialize : string -> option string.

(** The price update never rejects and asks the network once, for the
    price URL. When the answer is ok, its body parses and the cache
    storage opens, it posts the data to every window client (to nobody
    when no page is open) and the copy of status 200, stamped with the
    time of arrival, replaces the entry of the price URL if the cache
    accepts it; nothing else is stored. In every other case it posts
    nothing and stores nothing. *)
Theorem price_update_paths (env : Env) (clients : list WindowClient) (w : World) :
  let out := updatePriceData reserialize env clients w in
  let t1 := now w + latency env (now w) PRICE_URL in
  fetched (snd out) = fetched w ++ [PRICE_URL]
  /\ match network env (now w) PRICE_URL with
     | Fetched r =>
         match reserialize (body r) with
         | Some data =>
             if ok r && storage_available env then
               let entry := new_Response_text data 200
                              (HeadersOps.set (headers r) MARKER
                                 (JSNumber.toString t1)) in
               fst out = Resolved (List.map (fun client => (client, data)) clients)
               /\ stored (snd out) API_CACHE_NAME PRICE_URL
                  = (if storable entry then Some entry
                     else stored w API_CACHE_NAME PRICE_URL)
               /\ (forall n k, n <> API_CACHE_NAME \/ k <> PRICE_URL ->
                               stored (snd out) n k = stored w n k)
             else fst out = Resolved [] /\ same_entries w (snd out)
         | None => fst out = Resolved [] /\ same_entries w (snd out)
         end
     | NetworkError => fst out = Resolved [] /\ same_entries w (snd out)
     end.
Proof.
  cbn zeta. unfold updatePriceData. run.
  destruct (network env (now w) PRICE_URL) as [r |];
    [destruct (reserialize (body r)) as [data |];
     [destruct (ok r);
      [destruct (storage_available env) |] |
      destruct (ok r)] |];
    cbn [andb]; reduce; cbn [fst snd]; reduce;
    (split; [reflexivity |]); auto with entries.
  split; [reflexivity |]. split.
  - rewrite !String.eqb_refl, !andb_true_r. reflexivity.
  - intros n k Hnk. reduce.
    destruct (storable _); cbn [andb]; [| reflexivity].
    compare_names; try reflexivity. destruct Hnk; congruence.
Qed.

(** A price update that succeeds feeds the api handler: when the answer is
    ok, carries no [Vary: *] and its body parses, then during the five
    minutes that follow a request for the price URL is answered from the
    cache with the data posted, under status 200, without awaiting the
    network. *)
Theorem price_update_feeds_api_handler
    (env env' : Env) (clients : list WindowClient) (w : World) (r : Response)
    (data : string) (request : Request) (t2 : Z) :
  storage_available env = true ->
  network env (now w) PRICE_URL = Fetched r ->
  ok r = true ->
  varies_on_all (headers r) = false ->
  reserialize (body r) = Some data ->
  let t1 := now w + latency env (now w) PRICE_URL in
  0 <= t1 ->
  storage_available env' = true ->
  request_url request = PRICE_URL ->
  t2 - t1 <= CACHE_DURATIONS.api ->
  let w1 := snd (updatePriceData reserialize env clients w) in
  let out := handleAPIRequest env' request (with_now t2 w1) in
  fst (updatePriceData reserialize env clients w)
  = Resolved (List.map (fun client => (client, data)) clients)
  /\ fetched (snd out) = fetched w1
  /\ exists entry,
       fst out = Resolved (Some entry)
       /\ status entry = 200 /\ body entry = data.
Proof.
  intros Hs Hnet Hok Hvary Hdata t1 Ht1 Hs' Hurl Hage w1 out. subst out w1.
  unfold updatePriceData. run. rewrite Hnet. reduce. rewrite Hok, Hdata, Hs.
  reduce. cbn [fst snd]. fold t1.
  split; [reflexivity |].
  set (entry := new_Response_text data 200
                  (HeadersOps.set (headers r) MARKER (JSNumber.toString t1))).
  assert (Hacc : storable entry = true)
    by (subst entry; rewrite storable_text_response, Hvary; reflexivity).
  unfold handleAPIRequest. run. rewrite Hs', Hurl. reduce_at.
  rewrite Hacc, !String.eqb_refl. cbn [andb fresh].
  rewrite (isCacheExpired_marker t1 t2 entry _ Ht1)
    by apply marker_of_text_response.
  replace (t2 - t1 >? CACHE_DURATIONS.api) with false
    by (symmetry; rewrite Z.gtb_ltb; apply Z.ltb_ge; exact Hage).
  cbn [negb]. reduce_at. cbn [fst snd]. reduce_at.
  split; [reflexivity |]. exists entry. auto.
Qed.

End PriceUpdate.

Lemma price_update_paths_witness :
  fst (updatePriceData Some Samples.online [] Samples.empty_world) = Resolved []
  /\ stored (snd (updatePriceData Some Samples.online [] Samples.empty_world))
       DYNAMIC_CACHE_NAME PRICE_URL = None.
Proof.
  pose proof (price_update_paths Some Samples.online [] Samples.empty_world) as H.
  cbn zeta in H. destruct H as (_ & H).
  change (network Samples.online (now Samples.empty_world) PRICE_URL)
    with (Fetched Samples.response_200) in H.
  change (Some (body Samples.response_200)) with (Some "{}") in H.
  cbv beta iota in H.
  change (ok Samples.response_200 && storage_available Samples.online)
    with true in H.
  cbv beta iota in H. destruct H as (Hposts & _ & Hframe).
  split; [exact Hposts |].
  rewrite Hframe; [reflexivity | left; discriminate].
Defined.

Lemma price_update_feeds_api_handler_witness :
  let w1 := snd (updatePriceData Some Samples.online [Samples2.home_window]
                   Samples.empty_world) in
  let out := handleAPIRequest Samples.offline Samples2.batch_price_request
               (with_now (Samples.T0 + 60000) w1) in
  fetched (snd out) = fetched w1
  /\ exists entry,
       fst out = Resolved (Some entry)
       /\ status entry = 200 /\ body entry = body Samples.response_200.
Proof.
  refine (proj2 (price_update_feeds_api_handler Some Samples.online Samples.offline
                   [Samples2.home_window]
                   Samples.empty_world Samples.response_200
                   (body Samples.response_200) Samples2.batch_price_request
                   (Samples.T0 + 60000)
                   eq_refl eq_refl eq_refl eq_refl eq_refl _ eq_refl eq_refl _)).
  - vm_compute. discriminate.
  - vm_compute. discriminate.
Defined.

(** ** Notification clicks *)




(** ** The manifest and the classifier *)

(** A request for a path of the install manifest, on a host other than
    the price API, is of the static class: what installation stores is
    what the static handler looks up. *)
Theorem manifest_assets_are_static (url : URL) :
  List.In (pathname url) STATIC_ASSETS ->
  hostname url <> "api.coingecko.com" ->
  List.existsb (fun endpoint => startsWith (href url) endpoint) API_ENDPOINTS = false ->
  classify url = static.
Proof.
  intros Hin Hhost Hend. unfold classify, isAPIRequest. rewrite Hend.
  destruct (String.eqb_spec (hostname url) "api.coingecko.com") as [E | _];
    [contradiction |].
  cbn [orb]. unfold isStaticAsset.
  destruct url as [h host p sp]. cbn [pathname hostname href] in *.
  unfold STATIC_ASSETS in Hin. cbn [List.In] in Hin.
  repeat (destruct Hin as [<- | Hin]; [vm_compute; reflexivity |]).
  contradiction.
Qed.

Lemma manifest_assets_are_static_witness :
  classify (mkURL "https://app.example/js/modules/api.js" "app.example"
              "/js/modules/api.js" []) = static.
Proof.
  apply manifest_assets_are_static.
  - cbn. do 4 right. left. reflexivity.
  - discriminate.
  - reflexivity.
Defined.
